(** * Visual Product Matcher: the similarity search backend

    A shallow embedding of [backend/server.py]: the catalogue documents, the
    cosine-similarity ranking loop, the two search endpoints, product creation
    and catalogue seeding, together with the properties of the ranking and of
    the seeding guard. *)

From Stdlib Require Import List ZArith Lia Bool String Ascii Permutation Sorted.
From Stdlib Require Import Floats.SpecFloat.
Import ListNotations.
Local Open Scope string_scope.
Local Open Scope Z_scope.

(** ** Python floats

    A Python [float] is an IEEE 754 binary64 number.  We use the Standard
    Library's specification floats at precision 53 and maximal exponent 1024;
    comparisons are those of [SFcompare], which is undefined on NaN. *)

Module PyFloat.

Definition float := spec_float.

Definition prec : Z := 53.
Definition emax : Z := 1024.

Definition add (x y : float) : float := SFadd prec emax x y.
Definition mul (x y : float) : float := SFmul prec emax x y.
Definition div (x y : float) : float := SFdiv prec emax x y.

(** [float(n)] for a Python integer [n]. *)
Definition of_int (n : Z) : float := binary_normalize prec emax n 0 false.

Definition zero : float := S754_zero false.

(** [x < y], [x >= y] and [x == y] on Python floats. *)
Definition lt (x y : float) : bool := SFltb x y.

Definition ge (x y : float) : bool :=
  match SFcompare x y with
  | Some (Gt | Eq) => true
  | _ => false
  end.

Definition eqb (x y : float) : bool := SFeqb x y.

Definition is_nan (x : float) : bool :=
  match x with S754_nan => true | _ => false end.

(** A rank that orders the non-NaN floats the way [SFcompare] does:
    lexicographically on a class, then the exponent, then the mantissa. *)
Definition rank (x : float) : Z * Z * Z :=
  match x with
  | S754_zero _ => (0, 0, 0)
  | S754_infinity false => (2, 0, 0)
  | S754_infinity true => (-2, 0, 0)
  | S754_nan => (0, 0, 0)
  | S754_finite false m e => (1, e, Zpos m)
  | S754_finite true m e => (-1, - e, - Zpos m)
  end.

Definition rank_lt (a b : Z * Z * Z) : Prop :=
  let '(c1, e1, m1) := a in
  let '(c2, e2, m2) := b in
  c1 < c2 \/ (c1 = c2 /\ (e1 < e2 \/ (e1 = e2 /\ m1 < m2))).

End PyFloat.

Import PyFloat.


Local Open Scope list_scope.

(** ** Exceptions and results *)

Inductive exn : Type :=
| ValueError
| RuntimeError
| HTTPException (status_code : Z).

Inductive result (A : Type) : Type :=
| Return (a : A)
| Raise (e : exn).

Arguments Return {A} a.
Arguments Raise {A} e.

(** ** Data model

    A stored document has the fields of the pydantic model [Product].  The
    search code reads the embedding with [product.get('embedding')], so a
    document may lack it: [None] is the absent key, [Some []] the empty
    list, and both are falsy. *)

Record Product : Type := {
  id : string;
  name : string;
  category : string;
  image_url : string;
  price : option float;
  description : option string;
  embedding : option (list float);
  created_at : string
}.

Record ProductCreate : Type := {
  pc_name : string;
  pc_category : string;
  pc_image_url : string;
  pc_price : option float;
  pc_description : option string
}.

Record SimilarProduct : Type := {
  r_id : string;
  r_name : string;
  r_category : string;
  r_image_url : string;
  r_price : option float;
  r_description : option string;
  similarity_score : float
}.

(** The model [SearchRequest]; no route uses it. *)
Record SearchRequest : Type := {
  sr_limit : Z;
  sr_min_similarity : float;
  sr_category : option string
}.

(** The literals [0.3] and [0.5] as binary64 numbers. *)
Definition float_0_3 : float := S754_finite false 5404319552844595 (-54).
Definition float_0_5 : float := S754_finite false 4503599627370496 (-53).

Definition SearchRequest_default : SearchRequest :=
  {| sr_limit := 10; sr_min_similarity := float_0_5; sr_category := None |}.

(** ** Similarity

    [np.dot] on two one-dimensional sequences: the inner product when the
    lengths agree, a [ValueError] (shapes not aligned) otherwise.  The sum is
    accumulated from the left in binary64. *)

Fixpoint dot_acc (acc : float) (a b : list float) : float :=
  match a, b with
  | x :: a', y :: b' => dot_acc (add acc (mul x y)) a' b'
  | _, _ => acc
  end.

Definition np_dot (a b : list float) : option float :=
  if Nat.eqb (List.length a) (List.length b) then Some (dot_acc zero a b) else None.

Definition calculate_cosine_similarity (emb1 emb2 : list float) : result float :=
  match np_dot emb1 emb2 with
  | Some s => Return s
  | None => Raise ValueError
  end.

(** ** The ranking loop of the search routes *)

Definition result_entry (product : Product) (similarity : float) : SimilarProduct :=
  {| r_id := id product;
     r_name := name product;
     r_category := category product;
     r_image_url := image_url product;
     r_price := price product;
     r_description := description product;
     similarity_score := similarity |}.

(** One iteration of [for product in products]. *)
Definition score_product (query_embedding : list float) (min_similarity : float)
    (results : list SimilarProduct) (product : Product)
  : result (list SimilarProduct) :=
  match embedding product with
  | Some (x :: emb) =>
      match calculate_cosine_similarity query_embedding (x :: emb) with
      | Return similarity =>
          if ge similarity min_similarity
          then Return (results ++ [result_entry product similarity])
          else Return results
      | Raise e => Raise e
      end
  | _ => Return results
  end.

Fixpoint score_products (query_embedding : list float) (min_similarity : float)
    (results : list SimilarProduct) (products : list Product)
  : result (list SimilarProduct) :=
  match products with
  | [] => Return results
  | product :: rest =>
      match score_product query_embedding min_similarity results product with
      | Return results' =>
          score_products query_embedding min_similarity results' rest
      | Raise e => Raise e
      end
  end.

(** [results.sort(key=lambda x: x['similarity_score'], reverse=True)].
    The list sort is stable and compares keys with [<] only; with
    [reverse=True] it reverses the list, sorts it in ascending order and
    reverses the outcome.  The ascending sort is modelled by a stable
    insertion sort. *)

Fixpoint insert_by_score (x : SimilarProduct) (l : list SimilarProduct)
  : list SimilarProduct :=
  match l with
  | [] => [x]
  | y :: l' =>
      if lt (similarity_score y) (similarity_score x)
      then y :: insert_by_score x l'
      else x :: l
  end.

Definition sort_ascending (l : list SimilarProduct) : list SimilarProduct :=
  fold_right insert_by_score [] l.

Definition sort_reverse (l : list SimilarProduct) : list SimilarProduct :=
  rev (sort_ascending (rev l)).

(** The slice [l[:limit]]; a negative [limit] counts from the end. *)
Definition slice_to {A : Type} (l : list A) (limit : Z) : list A :=
  if 0 <=? limit
  then firstn (Z.to_nat limit) l
  else firstn (List.length l - Z.to_nat (- limit)) l.

(** Lines 196-216 (and 239-259): score, sort, truncate. *)
Definition rank_products (query_embedding : list float) (products : list Product)
    (min_similarity : float) (limit : Z) : result (list SimilarProduct) :=
  match score_products query_embedding min_similarity [] products with
  | Return results => Return (slice_to (sort_reverse results) limit)
  | Raise e => Raise e
  end.

(** ** The catalogue query

    [filter_query = {} if not category else {"category": category}]:
    [None] is the empty query; [None] and the empty string are falsy. *)

Definition filter_query (category : option string) : option string :=
  match category with
  | None => None
  | Some c => if String.eqb c "" then None else Some c
  end.

Definition find (query : option string) (docs : list Product) : list Product :=
  match query with
  | None => docs
  | Some c => filter (fun p => String.eqb (category p) c) docs
  end.

Definition to_list (len : nat) (cursor : list Product) : list Product :=
  firstn len cursor.

Definition candidates (category : option string) (docs : list Product)
  : list Product :=
  to_list 1000 (find (filter_query category) docs).

(** ** The outside world

    The routes talk to the network (image download), to the database and to
    the CLIP model.  The state threaded through a route is the collection
    [db.products] and the log of the outside interactions so far; what the
    outside answers is an arbitrary function of that log. *)

Inductive Event : Type :=
| EvGet (url : string)
| EvInsert (doc : Product).

Record World : Type := {
  db_products : list Product;
  log : list Event
}.

Record Env : Type := {
  Image : Type;
  (** [requests.get], [raise_for_status] and the decoding of the body;
      [None] when one of them raises *)
  http_get_image : list Event -> string -> option Image;
  (** [Image.open(io.BytesIO(b)).convert('RGB')]; [None] when it raises *)
  pil_open : list Init.Byte.byte -> option Image;
  (** whether [transformers] and [torch] could be imported *)
  CLIP_AVAILABLE : bool;
  (** the outcome of [CLIPEmbedder()], as its method [get_image_embedding]
      (followed by [tolist]); [None] when the constructor or the method
      raises *)
  CLIPEmbedder : option (Image -> option (list float));
  uuid4 : list Event -> string;
  utcnow_isoformat : list Event -> string;
  (** whether [insert_one] succeeds *)
  insert_acknowledged : list Event -> bool
}.

(** The global [embedder], set once when the module is loaded. *)
Definition embedder (env : Env) : option (Image env -> option (list float)) :=
  if CLIP_AVAILABLE env
  then match CLIPEmbedder env with
       | Some e => Some e
       | None => None
       end
  else None.

(** A small state and exception monad for the routes. *)
Definition M (A : Type) : Type := World -> result A * World.

Definition ret {A : Type} (a : A) : M A := fun w => (Return a, w).

Definition raise {A : Type} (e : exn) : M A := fun w => (Raise e, w).

Definition lift {A : Type} (r : result A) : M A := fun w => (r, w).

Definition bind {A B : Type} (m : M A) (k : A -> M B) : M B :=
  fun w =>
    match m w with
    | (Return a, w') => k a w'
    | (Raise e, w') => (Raise e, w')
    end.

(** [try: m except Exception: handler] *)
Definition try_except {A : Type} (m : M A) (handler : M A) : M A :=
  fun w =>
    match m w with
    | (Return a, w') => (Return a, w')
    | (Raise _, w') => handler w'
    end.

Notation "x <- m ;; k" := (bind m (fun x => k))
  (at level 61, m at next level, right associativity).

Definition record_event (e : Event) (w : World) : World :=
  {| db_products := db_products w; log := log w ++ [e] |}.

Definition load_image_from_url (env : Env) (url : string) : M (Image env) :=
  fun w =>
    match http_get_image env (log w) url with
    | Some image => (Return image, record_event (EvGet url) w)
    | None => (Raise ValueError, record_event (EvGet url) w)
    end.

Definition load_image_from_bytes (env : Env) (image_bytes : list Init.Byte.byte)
  : result (Image env) :=
  match pil_open env image_bytes with
  | Some image => Return image
  | None => Raise ValueError
  end.

Definition get_image_embedding {I : Type} (e : I -> option (list float))
    (image : I) : result (list float) :=
  match e image with
  | Some v => Return v
  | None => Raise RuntimeError
  end.

(** [Product(...)]: the default factories draw the id and the time. *)
Definition new_Product (env : Env) (name category image_url : string)
    (price : option float) (description : option string)
    (embedding : list float) : M Product :=
  fun w =>
    (Return {| id := uuid4 env (log w);
               name := name;
               category := category;
               image_url := image_url;
               price := price;
               description := description;
               embedding := Some embedding;
               created_at := utcnow_isoformat env (log w) |}, w).

Definition insert_one (env : Env) (doc : Product) : M unit :=
  fun w =>
    if insert_acknowledged env (log w)
    then (Return tt, {| db_products := db_products w ++ [doc];
                        log := log w ++ [EvInsert doc] |})
    else (Raise RuntimeError, record_event (EvInsert doc) w).

(** [db.products.find(filter_query, {"_id": 0}).to_list(1000)] *)
Definition find_to_list (category : option string) : M (list Product) :=
  fun w => (Return (candidates category (db_products w)), w).

Definition count_documents : M nat :=
  fun w => (Return (List.length (db_products w)), w).

(** A form field with a default value. *)
Definition Form {A : Type} (default : A) (field : option A) : A :=
  match field with
  | Some v => v
  | None => default
  end.

(** *** POST /products *)
Definition create_product (env : Env) (product : ProductCreate) : M Product :=
  match embedder env with
  | None => raise (HTTPException 503)
  | Some e =>
      try_except
        (image <- load_image_from_url env (pc_image_url product) ;;
         embedding <- lift (get_image_embedding e image) ;;
         product_obj <- new_Product env (pc_name product) (pc_category product)
                          (pc_image_url product) (pc_price product)
                          (pc_description product) embedding ;;
         _ <- insert_one env product_obj ;;
         ret product_obj)
        (raise (HTTPException 500))
  end.

(** *** POST /search/upload *)
Definition search_by_upload (env : Env) (file : list Init.Byte.byte)
    (limit : option Z) (min_similarity : option float)
    (category : option string) : M (list SimilarProduct) :=
  let limit := Form 10 limit in
  let min_similarity := Form float_0_3 min_similarity in
  match embedder env with
  | None => raise (HTTPException 503)
  | Some e =>
      try_except
        (image <- lift (load_image_from_bytes env file) ;;
         query_embedding <- lift (get_image_embedding e image) ;;
         products <- find_to_list category ;;
         lift (rank_products query_embedding products min_similarity limit))
        (raise (HTTPException 500))
  end.

(** *** POST /search/url *)
Definition search_by_url (env : Env) (url : string)
    (limit : option Z) (min_similarity : option float)
    (category : option string) : M (list SimilarProduct) :=
  let limit := Form 10 limit in
  let min_similarity := Form float_0_3 min_similarity in
  match embedder env with
  | None => raise (HTTPException 503)
  | Some e =>
      try_except
        (image <- load_image_from_url env url ;;
         query_embedding <- lift (get_image_embedding e image) ;;
         products <- find_to_list category ;;
         lift (rank_products query_embedding products min_similarity limit))
        (raise (HTTPException 500))
  end.

(** *** GET /seed-products *)

Record SampleProduct : Type := {
  sp_name : string;
  sp_category : string;
  sp_price : Z;
  sp_image_url : string
}.

Definition sample_products : list SampleProduct := [
  {| sp_name := "MacBook Pro 16"; sp_category := "Electronics"; sp_price := 2499;
     sp_image_url := "https://images.unsplash.com/photo-1517336714731-489689fd1ca8?w=500" |};
  {| sp_name := "Dell XPS 15"; sp_category := "Electronics"; sp_price := 1899;
     sp_image_url := "https://images.unsplash.com/photo-1593642632823-8f785ba67e45?w=500" |};
  {| sp_name := "HP Spectre x360"; sp_category := "Electronics"; sp_price := 1599;
     sp_image_url := "https://images.unsplash.com/photo-1496181133206-80ce9b88a853?w=500" |};
  {| sp_name := "Lenovo ThinkPad"; sp_category := "Electronics"; sp_price := 1299;
     sp_image_url := "https://images.unsplash.com/photo-1588872657578-7efd1f1555ed?w=500" |};
  {| sp_name := "ASUS ROG Gaming Laptop"; sp_category := "Electronics"; sp_price := 1799;
     sp_image_url := "https://images.unsplash.com/photo-1603302576837-37561b2e2302?w=500" |};
  {| sp_name := "iPhone 15 Pro"; sp_category := "Electronics"; sp_price := 999;
     sp_image_url := "https://images.unsplash.com/photo-1592286927505-0485968717fc?w=500" |};
  {| sp_name := "Samsung Galaxy S24"; sp_category := "Electronics"; sp_price := 899;
     sp_image_url := "https://images.unsplash.com/photo-1610945415295-d9bbf067e59c?w=500" |};
  {| sp_name := "Google Pixel 8"; sp_category := "Electronics"; sp_price := 799;
     sp_image_url := "https://images.unsplash.com/photo-1598327105666-5b89351aff97?w=500" |};
  {| sp_name := "OnePlus 12"; sp_category := "Electronics"; sp_price := 699;
     sp_image_url := "https://images.unsplash.com/photo-1511707171634-5f897ff02aa9?w=500" |};
  {| sp_name := "Nike Air Max"; sp_category := "Fashion"; sp_price := 150;
     sp_image_url := "https://images.unsplash.com/photo-1542291026-7eec264c27ff?w=500" |};
  {| sp_name := "Adidas Ultraboost"; sp_category := "Fashion"; sp_price := 180;
     sp_image_url := "https://images.unsplash.com/photo-1608231387042-66d1773070a5?w=500" |};
  {| sp_name := "Converse Chuck Taylor"; sp_category := "Fashion"; sp_price := 65;
     sp_image_url := "https://images.unsplash.com/photo-1607522370275-f14206abe5d3?w=500" |};
  {| sp_name := "Vans Old Skool"; sp_category := "Fashion"; sp_price := 70;
     sp_image_url := "https://images.unsplash.com/photo-1525966222134-fcfa99b8ae77?w=500" |};
  {| sp_name := "Puma RS-X"; sp_category := "Fashion"; sp_price := 110;
     sp_image_url := "https://images.unsplash.com/photo-1606107557195-0e29a4b5b4aa?w=500" |};
  {| sp_name := "Leather Jacket"; sp_category := "Fashion"; sp_price := 299;
     sp_image_url := "https://images.unsplash.com/photo-1551028719-00167b16eac5?w=500" |};
  {| sp_name := "Denim Jacket"; sp_category := "Fashion"; sp_price := 89;
     sp_image_url := "https://images.unsplash.com/photo-1576995853123-5a10305d93c0?w=500" |};
  {| sp_name := "Hoodie Sweatshirt"; sp_category := "Fashion"; sp_price := 59;
     sp_image_url := "https://images.unsplash.com/photo-1556821840-3a63f95609a7?w=500" |};
  {| sp_name := "T-Shirt Pack"; sp_category := "Fashion"; sp_price := 29;
     sp_image_url := "https://images.unsplash.com/photo-1521572163474-6864f9cf17ab?w=500" |};
  {| sp_name := "Office Chair Ergonomic"; sp_category := "Furniture"; sp_price := 349;
     sp_image_url := "https://images.unsplash.com/photo-1580480055273-228ff5388ef8?w=500" |};
  {| sp_name := "Gaming Chair"; sp_category := "Furniture"; sp_price := 299;
     sp_image_url := "https://images.unsplash.com/photo-1598550476439-6847785fcea6?w=500" |};
  {| sp_name := "Wooden Dining Chair"; sp_category := "Furniture"; sp_price := 129;
     sp_image_url := "https://images.unsplash.com/photo-1503602642458-232111445657?w=500" |};
  {| sp_name := "Recliner Armchair"; sp_category := "Furniture"; sp_price := 599;
     sp_image_url := "https://images.unsplash.com/photo-1567538096630-e0c55bd6374c?w=500" |};
  {| sp_name := "Coffee Table Modern"; sp_category := "Furniture"; sp_price := 199;
     sp_image_url := "https://images.unsplash.com/photo-1618219740975-d40978bb7378?w=500" |};
  {| sp_name := "Dining Table Wood"; sp_category := "Furniture"; sp_price := 799;
     sp_image_url := "https://images.unsplash.com/photo-1617806118233-18e1de247200?w=500" |};
  {| sp_name := "Standing Desk"; sp_category := "Furniture"; sp_price := 449;
     sp_image_url := "https://images.unsplash.com/photo-1595515106969-1ce29566ff1c?w=500" |};
  {| sp_name := "Table Lamp Modern"; sp_category := "Home"; sp_price := 79;
     sp_image_url := "https://images.unsplash.com/photo-1507473885765-e6ed057f782c?w=500" |};
  {| sp_name := "Wall Mirror Large"; sp_category := "Home"; sp_price := 149;
     sp_image_url := "https://images.unsplash.com/photo-1618221195710-dd6b41faaea6?w=500" |};
  {| sp_name := "Throw Pillows Set"; sp_category := "Home"; sp_price := 39;
     sp_image_url := "https://images.unsplash.com/photo-1584100936595-c0654b55a2e2?w=500" |};
  {| sp_name := "Area Rug"; sp_category := "Home"; sp_price := 199;
     sp_image_url := "https://images.unsplash.com/photo-1600166898405-da9535204843?w=500" |};
  {| sp_name := "Wall Art Canvas"; sp_category := "Home"; sp_price := 89;
     sp_image_url := "https://images.unsplash.com/photo-1513519245088-0e12902e35ca?w=500" |};
  {| sp_name := "Yoga Mat Premium"; sp_category := "Sports"; sp_price := 49;
     sp_image_url := "https://images.unsplash.com/photo-1601925260368-ae2f83cf8b7f?w=500" |};
  {| sp_name := "Dumbbell Set"; sp_category := "Sports"; sp_price := 199;
     sp_image_url := "https://images.unsplash.com/photo-1517836357463-d25dfeac3438?w=500" |};
  {| sp_name := "Tennis Racket"; sp_category := "Sports"; sp_price := 159;
     sp_image_url := "https://images.unsplash.com/photo-1617083278810-f9de9086e4f9?w=500" |};
  {| sp_name := "Basketball Wilson"; sp_category := "Sports"; sp_price := 29;
     sp_image_url := "https://images.unsplash.com/photo-1546519638-68e109498ffc?w=500" |};
  {| sp_name := "Running Shoes Pro"; sp_category := "Sports"; sp_price := 139;
     sp_image_url := "https://images.unsplash.com/photo-1542291026-7eec264c27ff?w=500" |};
  {| sp_name := "Programming Books Set"; sp_category := "Books"; sp_price := 79;
     sp_image_url := "https://images.unsplash.com/photo-1589998059171-988d887df646?w=500" |};
  {| sp_name := "Fiction Novel Collection"; sp_category := "Books"; sp_price := 49;
     sp_image_url := "https://images.unsplash.com/photo-1512820790803-83ca734da794?w=500" |};
  {| sp_name := "Coffee Table Book"; sp_category := "Books"; sp_price := 39;
     sp_image_url := "https://images.unsplash.com/photo-1497633762265-9d179a990aa6?w=500" |};
  {| sp_name := "Blender High Speed"; sp_category := "Kitchen"; sp_price := 99;
     sp_image_url := "https://images.unsplash.com/photo-1570222094114-d054a817e56b?w=500" |};
  {| sp_name := "Coffee Maker"; sp_category := "Kitchen"; sp_price := 129;
     sp_image_url := "https://images.unsplash.com/photo-1517668808822-9ebb02f2a0e6?w=500" |};
  {| sp_name := "Knife Set Professional"; sp_category := "Kitchen"; sp_price := 149;
     sp_image_url := "https://images.unsplash.com/photo-1593618998160-e34014e67546?w=500" |};
  {| sp_name := "Cookware Set"; sp_category := "Kitchen"; sp_price := 199;
     sp_image_url := "https://images.unsplash.com/photo-1556911220-bff31c812dba?w=500" |};
  {| sp_name := "Smartwatch"; sp_category := "Accessories"; sp_price := 299;
     sp_image_url := "https://images.unsplash.com/photo-1523275335684-37898b6baf30?w=500" |};
  {| sp_name := "Sunglasses Ray-Ban"; sp_category := "Accessories"; sp_price := 159;
     sp_image_url := "https://images.unsplash.com/photo-1511499767150-a48a237f0083?w=500" |};
  {| sp_name := "Backpack Leather"; sp_category := "Accessories"; sp_price := 189;
     sp_image_url := "https://images.unsplash.com/photo-1553062407-98eeb64c6a62?w=500" |};
  {| sp_name := "Wallet Bifold"; sp_category := "Accessories"; sp_price := 49;
     sp_image_url := "https://images.unsplash.com/photo-1627123424574-724758594e93?w=500" |};
  {| sp_name := "Belt Designer"; sp_category := "Accessories"; sp_price := 79;
     sp_image_url := "https://images.unsplash.com/photo-1624222247344-550fb60583aa?w=500" |};
  {| sp_name := "Wireless Headphones"; sp_category := "Electronics"; sp_price := 249;
     sp_image_url := "https://images.unsplash.com/photo-1505740420928-5e560c06d30e?w=500" |};
  {| sp_name := "Bluetooth Speaker"; sp_category := "Electronics"; sp_price := 99;
     sp_image_url := "https://images.unsplash.com/photo-1608043152269-423dbba4e7e1?w=500" |};
  {| sp_name := "Earbuds Wireless"; sp_category := "Electronics"; sp_price := 129;
     sp_image_url := "https://images.unsplash.com/photo-1590658268037-6bf12165a8df?w=500" |};
  {| sp_name := "Skincare Set"; sp_category := "Beauty"; sp_price := 89;
     sp_image_url := "https://images.unsplash.com/photo-1556228720-195a672e8a03?w=500" |};
  {| sp_name := "Makeup Palette"; sp_category := "Beauty"; sp_price := 59;
     sp_image_url := "https://images.unsplash.com/photo-1596704017254-9b121068ec31?w=500" |};
  {| sp_name := "Hair Dryer Professional"; sp_category := "Beauty"; sp_price := 149;
     sp_image_url := "https://images.unsplash.com/photo-1522338242992-e1a54906a8da?w=500" |}
].

Inductive SeedResponse : Type :=
| AlreadySeeded (count : nat)
| Seeded (inserted failed : nat).

(** The body of the [try] for one sample. *)
Definition seed_one (env : Env) (e : Image env -> option (list float))
    (product_data : SampleProduct) : M unit :=
  image <- load_image_from_url env (sp_image_url product_data) ;;
  embedding <- lift (get_image_embedding e image) ;;
  product <- new_Product env (sp_name product_data) (sp_category product_data)
               (sp_image_url product_data)
               (Some (of_int (sp_price product_data))) None embedding ;;
  insert_one env product.

Fixpoint seed_loop (env : Env) (e : Image env -> option (list float))
    (samples : list SampleProduct) (inserted failed : nat) : M (nat * nat) :=
  fun w =>
    match samples with
    | [] => (Return (inserted, failed), w)
    | product_data :: rest =>
        match seed_one env e product_data w with
        | (Return _, w') => seed_loop env e rest (S inserted) failed w'
        | (Raise _, w') => seed_loop env e rest inserted (S failed) w'
        end
    end.

Definition seed_products (env : Env) : M SeedResponse :=
  match embedder env with
  | None => raise (HTTPException 503)
  | Some e =>
      count <- count_documents ;;
      if (0 <? count)%nat
      then ret (AlreadySeeded count)
      else
        counts <- seed_loop env e sample_products 0%nat 0%nat ;;
        ret (Seeded (fst counts) (snd counts))
  end.

(** ** The remaining routes *)

(** *** GET / *)
Definition root (env : Env) : string * bool :=
  ("Visual Product Matcher API", CLIP_AVAILABLE env).

(** *** GET /products

    The documents are read with [to_list(1000)]; the stored [created_at]
    text of each is then parsed with [datetime.fromisoformat], which raises
    [ValueError] on a text it does not accept.  The parser is a parameter;
    a listed product is the document together with its parsed time. *)
Fixpoint parse_created_at {DT : Type} (fromisoformat : string -> option DT)
    (products : list Product) : result (list (Product * DT)) :=
  match products with
  | [] => Return []
  | product :: rest =>
      match fromisoformat (created_at product) with
      | None => Raise ValueError
      | Some d =>
          match parse_created_at fromisoformat rest with
          | Return out => Return ((product, d) :: out)
          | Raise x => Raise x
          end
      end
  end.

Definition get_products {DT : Type} (fromisoformat : string -> option DT)
  : M (list (Product * DT)) :=
  products <- find_to_list None ;;
  lift (parse_created_at fromisoformat products).

(** *** GET /products/categories

    [db.products.distinct("category")]: the category values of the
    collection, each once. *)
Definition distinct_category (docs : list Product) : list string :=
  nodup string_dec (map category docs).

Definition get_categories : M (list string) :=
  fun w => (Return (distinct_category (db_products w)), w).

(** *** The CORS configuration

    [os.environ.get('CORS_ORIGINS', '*').split(',')] *)
Fixpoint split_on (sep : ascii) (s : string) : list string :=
  match s with
  | EmptyString => [EmptyString]
  | String c s' =>
      if Ascii.eqb c sep
      then EmptyString :: split_on sep s'
      else match split_on sep s' with
           | [] => [String c EmptyString]
           | piece :: pieces => String c piece :: pieces
           end
  end.

Definition allow_origins (CORS_ORIGINS : option string) : list string :=
  split_on ","%char (match CORS_ORIGINS with
                     | Some v => v
                     | None => "*"
                     end).

(** ** The test client's bookkeeping ([backend_test.py])

    The test methods change the tester only through [log_test]. *)

Module Tester.

Record FailedTest : Type := {
  test : string;
  details : string
}.

Record VisualProductMatcherTester : Type := {
  tests_run : Z;
  tests_passed : Z;
  failed_tests : list FailedTest;
  passed_tests : list string
}.

(** [__init__] *)
Definition init : VisualProductMatcherTester :=
  {| tests_run := 0; tests_passed := 0; failed_tests := []; passed_tests := [] |}.

Definition log_test (name : string) (success : bool) (details : string)
    (self : VisualProductMatcherTester) : VisualProductMatcherTester :=
  if success
  then {| tests_run := tests_run self + 1;
          tests_passed := tests_passed self + 1;
          failed_tests := failed_tests self;
          passed_tests := passed_tests self ++ [name] |}
  else {| tests_run := tests_run self + 1;
          tests_passed := tests_passed self;
          failed_tests := failed_tests self
                          ++ [{| test := name; details := details |}];
          passed_tests := passed_tests self |}.

(** The dictionary returned by [get_results]. *)
Record Results : Type := {
  res_total_tests : Z;
  res_passed_tests : Z;
  res_failed_tests : nat;
  (** the integer [0] when no test ran, otherwise the float
      [tests_passed / tests_run * 100]; the counters are converted to floats
      before the division, which is exact for counts below 2^53 *)
  res_success_rate : Z + float;
  res_passed_test_names : list string;
  res_failed_test_details : list FailedTest
}.

Definition get_results (self : VisualProductMatcherTester) : Results :=
  {| res_total_tests := tests_run self;
     res_passed_tests := tests_passed self;
     res_failed_tests := List.length (failed_tests self);
     res_success_rate :=
       if 0 <? tests_run self
       then inr (mul (div (of_int (tests_passed self)) (of_int (tests_run self)))
                   (of_int 100))
       else inl 0;
     res_passed_test_names := passed_tests self;
     res_failed_test_details := failed_tests self |}.

(** The exit code of [main], from the results of the run. *)
Definition exit_code (results : Results) : Z :=
  if Nat.eqb (res_failed_tests results) 0 then 0 else 1.

(** The testers reached from a fresh one by calls of [log_test]. *)
Inductive logged : VisualProductMatcherTester -> Prop :=
| logged_init : logged init
| logged_test (name : string) (success : bool) (details : string)
    (self : VisualProductMatcherTester) :
    logged self -> logged (log_test name success details self).

End Tester.

(** ** Notions used to state the properties *)

(** A candidate is scorable against a query when its embedding, if it has a
    non-empty one, has the dimension of the query. *)
Definition well_formed (query_embedding : list float) (product : Product) : bool :=
  match embedding product with
  | Some (x :: emb) => Nat.eqb (List.length query_embedding) (List.length (x :: emb))
  | _ => true
  end.

(** What one iteration of the loop appends when it does not raise. *)
Definition contribution (query_embedding : list float) (min_similarity : float)
    (product : Product) : list SimilarProduct :=
  match score_product query_embedding min_similarity [] product with
  | Return results => results
  | Raise _ => []
  end.

(** [product] has a non-empty fingerprint whose similarity [s] to the query
    reaches the threshold. *)
Definition kept (query_embedding : list float) (min_similarity : float)
    (product : Product) (s : float) : Prop :=
  exists f, embedding product = Some f /\ f <> [] /\
            np_dot query_embedding f = Some s /\ ge s min_similarity = true.

Definition score_ge (a b : SimilarProduct) : Prop :=
  ge (similarity_score a) (similarity_score b) = true.

Definition with_score (v : float) (l : list SimilarProduct) : list SimilarProduct :=
  filter (fun r => eqb (similarity_score r) v) l.

Definition score_le (a b : SimilarProduct) : Prop := score_ge b a.

Definition scores_defined (l : list SimilarProduct) : Prop :=
  Forall (fun r => is_nan (similarity_score r) = false) l.


(** What the route's handler makes of the outcome of its [try] block. *)
Definition http_500 {A : Type} (r : result A) : result A :=
  match r with
  | Return a => Return a
  | Raise _ => Raise (HTTPException 500)
  end.

(** Whether a document passes the category filter of a search. *)
Definition matches (category' : option string) (product : Product) : bool :=
  match category' with
  | None => true
  | Some c => if String.eqb c "" then true else String.eqb (category product) c
  end.

(** The catalogue scan in the words of the specification: the records whose
    category equals the filter value, or all records without a filter. *)
Definition scan_spec (category' : option string) (docs : list Product)
  : list Product :=
  match category' with
  | None => docs
  | Some c => filter (fun p => String.eqb (category p) c) docs
  end.

Definition is_get (ev : Event) : bool :=
  match ev with
  | EvGet _ => true
  | EvInsert _ => false
  end.

Definition downloads (w : World) : list Event := filter is_get (log w).

(** The document [create_product] builds when the log of interactions
    is [l] and the encoder answered [v]. *)
Definition created_doc (env : Env) (product : ProductCreate) (v : list float)
    (l : list Event) : Product :=
  {| id := uuid4 env l;
     name := pc_name product;
     category := pc_category product;
     image_url := pc_image_url product;
     price := pc_price product;
     description := pc_description product;
     embedding := Some v;
     created_at := utcnow_isoformat env l |}.

(** [l1] is [l2] with some elements left out. *)
Inductive subseq {A : Type} : list A -> list A -> Prop :=
| subseq_nil : subseq [] []
| subseq_skip (x : A) (l1 l2 : list A) : subseq l1 l2 -> subseq l1 (x :: l2)
| subseq_take (x : A) (l1 l2 : list A) : subseq l1 l2 -> subseq (x :: l1) (x :: l2).

(** The document [doc] was seeded from the sample [s]. *)
Definition seeded_from (s : SampleProduct) (doc : Product) : Prop :=
  name doc = sp_name s /\ category doc = sp_category s /\
  image_url doc = sp_image_url s /\
  price doc = Some (of_int (sp_price s)) /\
  description doc = None /\ exists v, embedding doc = Some v.

(** The result entry [r] shows the stored document [p]. *)
Definition shows (r : SimilarProduct) (p : Product) : Prop :=
  r_id r = id p /\ r_name r = name p /\ r_category r = category p /\
  r_image_url r = image_url p /\ r_price r = price p /\
  r_description r = description p.

(** ** A small catalogue used in the examples *)

Module Sample.

Definition one : float := of_int 1.
Definition f0_9 : float := div (of_int 9) (of_int 10).
Definition f0_85 : float := div (of_int 85) (of_int 100).
Definition f0_6 : float := div (of_int 6) (of_int 10).

Definition item (i c : string) (emb : option (list float)) : Product :=
  {| id := i; name := i; category := c; image_url := "http://img/" ++ i;
     price := None; description := None; embedding := emb;
     created_at := "2024-01-01T00:00:00+00:00" |}.

Definition query : list float := [one].

Definition A : Product := item "A" "Electronics" (Some [f0_9]).
Definition B : Product := item "B" "Electronics" (Some [float_0_5]).
Definition C : Product := item "C" "Fashion" (Some [f0_85]).
Definition D : Product := item "D" "Fashion" None.
Definition E : Product := item "E" "Fashion" (Some []).
(** same score as [B] *)
Definition B' : Product := item "B2" "Fashion" (Some [float_0_5]).
(** a score below the default threshold *)
Definition Low : Product := item "L" "Home" (Some [div (of_int 1) (of_int 4)]).
(** a fingerprint of dimension 2 *)
Definition Bad : Product := item "Bad" "Electronics" (Some [one; one]).

(** A stub environment: an image is the text it was loaded from, the
    encoder answers a fixed vector, and every insertion succeeds. *)
Definition env : Env :=
  {| Image := string;
     http_get_image := fun _ url =>
       if String.eqb url "http://bad" then None else Some url;
     pil_open := fun b => match b with [] => None | _ => Some "u" end;
     CLIP_AVAILABLE := true;
     CLIPEmbedder := Some (fun _ => Some query);
     uuid4 := fun _ => "00000000-0000-4000-8000-000000000000";
     utcnow_isoformat := fun _ => "2024-01-01T00:00:00+00:00";
     insert_acknowledged := fun _ => true |}.

(** The same, but the first download of a session fails. *)
Definition env_flaky : Env :=
  {| Image := string;
     http_get_image := fun l url =>
       match l with [] => None | _ => Some url end;
     pil_open := fun b => match b with [] => None | _ => Some "u" end;
     CLIP_AVAILABLE := true;
     CLIPEmbedder := Some (fun _ => Some query);
     uuid4 := fun _ => "00000000-0000-4000-8000-000000000000";
     utcnow_isoformat := fun _ => "2024-01-01T00:00:00+00:00";
     insert_acknowledged := fun _ => true |}.

(** The same, but the CLIP libraries are missing. *)
Definition env_down : Env :=
  {| Image := string;
     http_get_image := fun _ url => Some url;
     pil_open := fun _ => Some "u";
     CLIP_AVAILABLE := false;
     CLIPEmbedder := None;
     uuid4 := fun _ => "00000000-0000-4000-8000-000000000000";
     utcnow_isoformat := fun _ => "2024-01-01T00:00:00+00:00";
     insert_acknowledged := fun _ => true |}.

(** The libraries import, but loading the model fails. *)
Definition env_broken : Env :=
  {| Image := string;
     http_get_image := fun _ url => Some url;
     pil_open := fun _ => Some "u";
     CLIP_AVAILABLE := true;
     CLIPEmbedder := None;
     uuid4 := fun _ => "00000000-0000-4000-8000-000000000000";
     utcnow_isoformat := fun _ => "2024-01-01T00:00:00+00:00";
     insert_acknowledged := fun _ => true |}.

(** Every download fails. *)
Definition env_offline : Env :=
  {| Image := string;
     http_get_image := fun _ _ => None;
     pil_open := fun b => match b with [] => None | _ => Some "u" end;
     CLIP_AVAILABLE := true;
     CLIPEmbedder := Some (fun _ => Some query);
     uuid4 := fun _ => "00000000-0000-4000-8000-000000000000";
     utcnow_isoformat := fun _ => "2024-01-01T00:00:00+00:00";
     insert_acknowledged := fun _ => true |}.

(** A parser of times that rejects the empty text only. *)
Definition parse_time (s : string) : option string :=
  if String.eqb s "" then None else Some s.

Definition undated : Product :=
  {| id := "U"; name := "U"; category := "Home"; image_url := "http://img/U";
     price := None; description := None; embedding := None;
     created_at := "" |}.

Definition upload : list Init.Byte.byte := [Init.Byte.x89; Init.Byte.x50].

Definition empty_world : World := {| db_products := []; log := [] |}.

Definition world_of (docs : list Product) : World :=
  {| db_products := docs; log := [] |}.

(** 1001 documents; the last one is beyond the cursor's cap. *)
Definition big_store : list Product := repeat A 1000 ++ [C].

Definition new_item : ProductCreate :=
  {| pc_name := "Lamp"; pc_category := "Home"; pc_image_url := "http://lamp";
     pc_price := Some one; pc_description := None |}.

End Sample.

(** * Properties *)

(** ** The order on floats *)

Section FloatOrder.

Lemma compare_cont_Eq (p q : positive) :
  Pos.compare_cont Eq p q = (Zpos p ?= Zpos q).
Proof. reflexivity. Qed.

Ltac zcmp :=
  repeat match goal with
  | |- context [Z.compare ?a ?b] => destruct (Z.compare_spec a b)
  | |- context [Pos.compare_cont Eq ?a ?b] =>
      rewrite (compare_cont_Eq a b)
  end.

Lemma SFcompare_Lt (x y : float) :
  is_nan x = false -> is_nan y = false ->
  (SFcompare x y = Some Lt <-> rank_lt (rank x) (rank y)).
Proof.
  destruct x as [[|]|[|]| |[|] m1 e1], y as [[|]|[|]| |[|] m2 e2];
    cbn; intros; try discriminate; zcmp; cbn;
    split; intros; try discriminate; try lia; try reflexivity.
Qed.

Lemma SFcompare_Gt (x y : float) :
  is_nan x = false -> is_nan y = false ->
  (SFcompare x y = Some Gt <-> rank_lt (rank y) (rank x)).
Proof.
  destruct x as [[|]|[|]| |[|] m1 e1], y as [[|]|[|]| |[|] m2 e2];
    cbn; intros; try discriminate; zcmp; cbn;
    split; intros; try discriminate; try lia; try reflexivity.
Qed.

Lemma SFcompare_Eq (x y : float) :
  is_nan x = false -> is_nan y = false ->
  (SFcompare x y = Some Eq <-> rank x = rank y).
Proof.
  destruct x as [[|]|[|]| |[|] m1 e1], y as [[|]|[|]| |[|] m2 e2];
    cbn; intros; try discriminate; zcmp; cbn;
    split; intros; try discriminate; try congruence; try reflexivity;
    try (exfalso; match goal with H : (_, _, _) = (_, _, _) |- _ =>
                    injection H; intros; lia end).
Qed.

Lemma SFcompare_nan_l (y : float) : SFcompare S754_nan y = None.
Proof. destruct y; reflexivity. Qed.

Lemma SFcompare_nan_r (x : float) : SFcompare x S754_nan = None.
Proof. destruct x; reflexivity. Qed.

Lemma SFcompare_some (x y : float) :
  is_nan x = false -> is_nan y = false -> exists c, SFcompare x y = Some c.
Proof.
  destruct x, y; cbn; intros; try discriminate; eauto.
Qed.

(** The derived facts used by the ranking proofs. *)

Lemma ge_not_nan (x y : float) :
  ge x y = true -> is_nan x = false /\ is_nan y = false.
Proof.
  unfold ge. destruct x, y; cbn; intros; try discriminate; auto.
Qed.

Lemma lt_rank (x y : float) :
  is_nan x = false -> is_nan y = false ->
  (lt x y = true <-> rank_lt (rank x) (rank y)).
Proof.
  intros Hx Hy. rewrite <- (SFcompare_Lt x y Hx Hy). unfold lt, SFltb.
  destruct (SFcompare x y) as [[| |]|]; split; intros; congruence.
Qed.

Lemma ge_rank (x y : float) :
  is_nan x = false -> is_nan y = false ->
  (ge x y = true <-> ~ rank_lt (rank x) (rank y)).
Proof.
  intros Hx Hy. rewrite <- (SFcompare_Lt x y Hx Hy). unfold ge.
  destruct (SFcompare_some x y Hx Hy) as [c ->].
  destruct c; split; intros; try congruence; try reflexivity;
    exfalso; auto.
Qed.

Lemma eqb_rank (x y : float) :
  is_nan x = false -> is_nan y = false ->
  (eqb x y = true <-> rank x = rank y).
Proof.
  intros Hx Hy. rewrite <- (SFcompare_Eq x y Hx Hy). unfold eqb, SFeqb.
  destruct (SFcompare x y) as [[| |]|]; split; intros; congruence.
Qed.

Lemma eqb_not_nan (x y : float) :
  eqb x y = true -> is_nan x = false /\ is_nan y = false.
Proof.
  unfold eqb, SFeqb. destruct x, y; cbn; intros; try discriminate; auto.
Qed.

Lemma eqb_ge (x y : float) : eqb x y = true -> ge x y = true.
Proof.
  unfold eqb, SFeqb, ge. destruct (SFcompare x y) as [[| |]|]; congruence.
Qed.

Lemma lt_false_ge (x y : float) :
  is_nan x = false -> is_nan y = false -> lt x y = false -> ge x y = true.
Proof.
  intros Hx Hy H. apply ge_rank; auto. intro R.
  apply (lt_rank x y Hx Hy) in R. congruence.
Qed.

Lemma lt_ge_flip (x y : float) : lt x y = true -> ge y x = true.
Proof.
  intros H.
  assert (Hn : is_nan x = false /\ is_nan y = false).
  { unfold lt, SFltb in H. destruct x, y; cbn in *; try discriminate; auto. }
  destruct Hn as [Hx Hy].
  apply (lt_rank x y Hx Hy) in H. apply ge_rank; auto.
  destruct (rank x) as [[c1 e1] m1], (rank y) as [[c2 e2] m2]; cbn in *. lia.
Qed.

Lemma ge_trans (x y z : float) :
  ge x y = true -> ge y z = true -> ge x z = true.
Proof.
  intros H1 H2.
  destruct (ge_not_nan _ _ H1) as [Hx Hy], (ge_not_nan _ _ H2) as [_ Hz].
  apply (ge_rank x y Hx Hy) in H1. apply (ge_rank y z Hy Hz) in H2.
  apply ge_rank; auto.
  destruct (rank x) as [[c1 e1] m1], (rank y) as [[c2 e2] m2],
    (rank z) as [[c3 e3] m3]; cbn in *. lia.
Qed.

Lemma lt_not_both_eqb (x y v : float) :
  lt y x = true -> eqb y v = true -> eqb x v = true -> False.
Proof.
  intros H1 H2 H3.
  destruct (eqb_not_nan _ _ H2) as [Hy Hv], (eqb_not_nan _ _ H3) as [Hx _].
  apply (lt_rank y x Hy Hx) in H1.
  apply (eqb_rank y v Hy Hv) in H2. apply (eqb_rank x v Hx Hv) in H3.
  rewrite H2, H3 in H1.
  destruct (rank v) as [[c e] m]; cbn in *. lia.
Qed.

End FloatOrder.

(** ** The scoring loop *)

Section Scoring.

Variable q : list float.
Variable t : float.

Lemma score_product_acc (acc : list SimilarProduct) (p : Product) :
  score_product q t acc p =
  match score_product q t [] p with
  | Return r => Return (acc ++ r)
  | Raise e => Raise e
  end.
Proof.
  unfold score_product. destruct (embedding p) as [[|x f]|]; cbn;
    try (now rewrite app_nil_r).
  destruct (calculate_cosine_similarity q (x :: f)); auto.
  destruct (ge a t); cbn; auto. now rewrite app_nil_r.
Qed.

Lemma score_product_well_formed (p : Product) :
  well_formed q p = true ->
  score_product q t [] p = Return (contribution q t p).
Proof.
  unfold contribution, well_formed, score_product, calculate_cosine_similarity,
    np_dot.
  destruct (embedding p) as [[|x f]|]; auto.
  intros ->. destruct (ge _ t); reflexivity.
Qed.

Lemma score_product_malformed (acc : list SimilarProduct) (p : Product) :
  well_formed q p = false -> score_product q t acc p = Raise ValueError.
Proof.
  unfold well_formed, score_product, calculate_cosine_similarity, np_dot.
  destruct (embedding p) as [[|x f]|]; try discriminate.
  now intros ->.
Qed.

Lemma score_products_well_formed (ps : list Product) :
  forall acc,
    forallb (well_formed q) ps = true ->
    score_products q t acc ps = Return (acc ++ flat_map (contribution q t) ps).
Proof.
  induction ps as [|p ps IH]; intros acc H; cbn.
  - now rewrite app_nil_r.
  - cbn in H. apply andb_true_iff in H as [Hp Hps].
    rewrite score_product_acc, (score_product_well_formed p Hp).
    rewrite (IH _ Hps). now rewrite app_assoc.
Qed.

Lemma score_products_malformed (ps : list Product) :
  forall acc,
    forallb (well_formed q) ps = false ->
    score_products q t acc ps = Raise ValueError.
Proof.
  induction ps as [|p ps IH]; intros acc H; cbn in *; try discriminate.
  destruct (well_formed q p) eqn:Hp; cbn in H.
  - rewrite score_product_acc, (score_product_well_formed p Hp). now apply IH.
  - now rewrite (score_product_malformed acc p Hp).
Qed.

Lemma contribution_cases (p : Product) :
  (exists s, kept q t p s /\ contribution q t p = [result_entry p s]) \/
  ((forall s, ~ kept q t p s) /\ contribution q t p = []).
Proof.
  unfold contribution, kept, score_product, calculate_cosine_similarity.
  destruct (embedding p) as [[|x f]|] eqn:E.
  - right. split; auto. intros s (f & Hf & Hne & _). congruence.
  - destruct (np_dot q (x :: f)) as [s|] eqn:D.
    + destruct (ge s t) eqn:G.
      * left. exists s. split; auto. exists (x :: f). repeat split; auto.
        discriminate.
      * right. split; auto. intros s' (f' & Hf & _ & Hd & Hg).
        injection Hf as <-. congruence.
    + right. split; auto. intros s' (f' & Hf & _ & Hd & _).
      injection Hf as <-. congruence.
  - right. split; auto. intros s (f & Hf & _). discriminate.
Qed.

Lemma kept_functional (p : Product) (s s' : float) :
  kept q t p s -> kept q t p s' -> s = s'.
Proof.
  intros (f & Hf & _ & Hd & _) (f' & Hf' & _ & Hd' & _). congruence.
Qed.

Lemma in_contribution (p : Product) (r : SimilarProduct) :
  In r (contribution q t p) -> exists s, kept q t p s /\ r = result_entry p s.
Proof.
  destruct (contribution_cases p) as [(s & K & ->)|(_ & ->)]; cbn;
    intros []; try contradiction.
  exists s. auto.
Qed.

Lemma contribution_not_nan (p : Product) (r : SimilarProduct) :
  In r (contribution q t p) -> is_nan (similarity_score r) = false.
Proof.
  intros H. apply in_contribution in H as (s & (f & _ & _ & _ & G) & ->).
  cbn. now apply ge_not_nan in G.
Qed.

End Scoring.

(** ** The sort *)

Section Sorting.

Lemma with_score_cons (v : float) (x : SimilarProduct) (l : list SimilarProduct) :
  with_score v (x :: l) =
  if eqb (similarity_score x) v then x :: with_score v l else with_score v l.
Proof. reflexivity. Qed.

Lemma insert_by_score_perm (x : SimilarProduct) (l : list SimilarProduct) :
  Permutation (insert_by_score x l) (x :: l).
Proof.
  induction l as [|y l IH]; cbn; auto.
  destruct (lt (similarity_score y) (similarity_score x)); auto.
  rewrite IH. apply perm_swap.
Qed.

Lemma sort_ascending_perm (l : list SimilarProduct) :
  Permutation (sort_ascending l) l.
Proof.
  induction l as [|x l IH]; cbn; auto.
  rewrite insert_by_score_perm. now constructor.
Qed.

Lemma sort_reverse_perm (l : list SimilarProduct) :
  Permutation (sort_reverse l) l.
Proof.
  unfold sort_reverse. rewrite <- Permutation_rev, sort_ascending_perm.
  symmetry. apply Permutation_rev.
Qed.

Lemma insert_by_score_with_score (v : float) (x : SimilarProduct)
    (l : list SimilarProduct) :
  with_score v (insert_by_score x l) = with_score v (x :: l).
Proof.
  induction l as [|y l IH]; [reflexivity|].
  change (insert_by_score x (y :: l))
    with (if lt (similarity_score y) (similarity_score x)
          then y :: insert_by_score x l else x :: y :: l).
  destruct (lt (similarity_score y) (similarity_score x)) eqn:L; auto.
  rewrite !with_score_cons, IH, with_score_cons.
  destruct (eqb (similarity_score y) v) eqn:Ey,
           (eqb (similarity_score x) v) eqn:Ex; auto.
  exfalso. exact (lt_not_both_eqb _ _ _ L Ey Ex).
Qed.

Lemma sort_ascending_with_score (v : float) (l : list SimilarProduct) :
  with_score v (sort_ascending l) = with_score v l.
Proof.
  induction l as [|x l IH]; [reflexivity|].
  change (sort_ascending (x :: l)) with (insert_by_score x (sort_ascending l)).
  now rewrite insert_by_score_with_score, !with_score_cons, IH.
Qed.

Lemma with_score_rev (v : float) (l : list SimilarProduct) :
  with_score v (rev l) = rev (with_score v l).
Proof.
  unfold with_score. induction l as [|x l IH]; cbn; auto.
  rewrite filter_app, IH. cbn.
  destruct (eqb (similarity_score x) v); cbn; auto using app_nil_r.
Qed.

(** Entries with equal scores keep their order. *)
Lemma sort_reverse_stable (v : float) (l : list SimilarProduct) :
  with_score v (sort_reverse l) = with_score v l.
Proof.
  unfold sort_reverse.
  now rewrite with_score_rev, sort_ascending_with_score, with_score_rev,
    rev_involutive.
Qed.

Lemma insert_by_score_sorted (x : SimilarProduct) (l : list SimilarProduct) :
  is_nan (similarity_score x) = false ->
  scores_defined l ->
  StronglySorted score_le l ->
  StronglySorted score_le (insert_by_score x l).
Proof.
  intros Hx Hl Hs. induction Hs as [|y l Hs IH Hy]; cbn.
  - repeat constructor.
  - inversion Hl as [|? ? Hny Hl']; subst.
    destruct (lt (similarity_score y) (similarity_score x)) eqn:L.
    + constructor; auto.
      apply (Permutation_Forall (Permutation_sym (insert_by_score_perm x l))).
      constructor; auto. now apply lt_ge_flip.
    + assert (G : score_le x y) by now apply lt_false_ge.
      constructor; [now constructor|].
      constructor; auto.
      apply Forall_forall. intros z Hz.
      rewrite Forall_forall in Hy. specialize (Hy z Hz).
      unfold score_le, score_ge in *. eapply ge_trans; eauto.
Qed.

Lemma sort_ascending_sorted (l : list SimilarProduct) :
  scores_defined l -> StronglySorted score_le (sort_ascending l).
Proof.
  induction 1 as [|x l Hx Hl IH]; cbn; [constructor|].
  apply insert_by_score_sorted; auto.
  apply (Permutation_Forall (Permutation_sym (sort_ascending_perm l))); auto.
Qed.

Lemma StronglySorted_snoc {A : Type} (R : A -> A -> Prop) (l : list A) (x : A) :
  StronglySorted R l -> Forall (fun y => R y x) l -> StronglySorted R (l ++ [x]).
Proof.
  induction 1 as [|y l Hs IH Hy]; cbn; intros F.
  - repeat constructor.
  - inversion F; subst. constructor; auto.
    apply Forall_app. split; auto.
Qed.

Lemma StronglySorted_rev {A : Type} (R : A -> A -> Prop) (l : list A) :
  StronglySorted R l -> StronglySorted (fun a b => R b a) (rev l).
Proof.
  induction 1 as [|y l Hs IH Hy]; cbn; [constructor|].
  apply StronglySorted_snoc; auto.
  apply Forall_rev; auto.
Qed.

Lemma StronglySorted_firstn {A : Type} (R : A -> A -> Prop) (n : nat) (l : list A) :
  StronglySorted R l -> StronglySorted R (firstn n l).
Proof.
  intros H. revert n. induction H as [|y l Hs IH Hy]; intros [|n]; cbn;
    try constructor; auto.
  rewrite Forall_forall in *. intros z Hz. apply Hy.
  rewrite <- (firstn_skipn n l). apply in_or_app. now left.
Qed.

Lemma sort_reverse_sorted (l : list SimilarProduct) :
  scores_defined l -> StronglySorted score_ge (sort_reverse l).
Proof.
  intros H. unfold sort_reverse.
  apply (StronglySorted_rev score_le).
  apply sort_ascending_sorted.
  apply (Permutation_Forall (Permutation_rev l)); auto.
Qed.

Lemma slice_to_prefix {A : Type} (l : list A) (limit : Z) :
  exists n, slice_to l limit = firstn n l.
Proof.
  unfold slice_to. destruct (0 <=? limit); eauto.
Qed.

Lemma with_score_firstn (v : float) (n : nat) (l : list SimilarProduct) :
  with_score v l = with_score v (firstn n l) ++ with_score v (skipn n l).
Proof.
  unfold with_score. now rewrite <- filter_app, firstn_skipn.
Qed.

End Sorting.

(** ** The ranking *)

Example scenario_ranking :
  rank_products Sample.query [Sample.A; Sample.B; Sample.C; Sample.D]
    Sample.f0_6 2
  = Return [result_entry Sample.A Sample.f0_9;
            result_entry Sample.C Sample.f0_85].
Proof. vm_compute. reflexivity. Qed.

Example scenario_tie :
  rank_products Sample.query [Sample.B; Sample.A; Sample.B'; Sample.E]
    float_0_5 10
  = Return [result_entry Sample.A Sample.f0_9;
            result_entry Sample.B float_0_5;
            result_entry Sample.B' float_0_5].
Proof. vm_compute. reflexivity. Qed.

Example scenario_negative_limit :
  rank_products Sample.query [Sample.B; Sample.A; Sample.C] float_0_5 (-1)
  = Return [result_entry Sample.A Sample.f0_9;
            result_entry Sample.C Sample.f0_85].
Proof. vm_compute. reflexivity. Qed.

Example float_0_3_literal : float_0_3 = div (of_int 3) (of_int 10).
Proof. vm_compute. reflexivity. Qed.

Example float_0_5_literal : float_0_5 = div (of_int 1) (of_int 2).
Proof. vm_compute. reflexivity. Qed.

Lemma rank_products_well_formed (q : list float) (ps : list Product)
    (t : float) (limit : Z) :
  forallb (well_formed q) ps = true ->
  rank_products q ps t limit =
  Return (slice_to (sort_reverse (flat_map (contribution q t) ps)) limit).
Proof.
  intros H. unfold rank_products.
  now rewrite (score_products_well_formed q t ps [] H).
Qed.

Lemma rank_products_malformed (q : list float) (ps : list Product)
    (t : float) (limit : Z) :
  forallb (well_formed q) ps = false ->
  rank_products q ps t limit = Raise ValueError.
Proof.
  intros H. unfold rank_products.
  now rewrite (score_products_malformed q t ps [] H).
Qed.

(** The ranking returns exactly when no candidate has a fingerprint of
    the wrong dimension. *)
Lemma rank_products_returns_iff (q : list float) (ps : list Product)
    (t : float) (limit : Z) :
  (exists out, rank_products q ps t limit = Return out) <->
  forallb (well_formed q) ps = true.
Proof.
  split.
  - intros [out H]. destruct (forallb (well_formed q) ps) eqn:F; auto.
    rewrite (rank_products_malformed q ps t limit F) in H. discriminate.
  - intros F. eexists. now apply rank_products_well_formed.
Qed.

Lemma survivors_scores_defined (q : list float) (t : float) (ps : list Product) :
  scores_defined (flat_map (contribution q t) ps).
Proof.
  apply Forall_forall. intros r H. apply in_flat_map in H as (p & _ & H).
  exact (contribution_not_nan q t p r H).
Qed.

Lemma in_slice_to {A : Type} (l : list A) (limit : Z) (x : A) :
  In x (slice_to l limit) -> In x l.
Proof.
  destruct (slice_to_prefix l limit) as [n ->].
  rewrite <- (firstn_skipn n l) at 2. intros H. apply in_or_app. now left.
Qed.

(** C1, as amended: for every query, every threshold and every candidate
    list in which each non-empty fingerprint has the dimension of the query
    (exactly the lists on which the search returns a result), a candidate
    contributes a result entry exactly when it has a non-empty fingerprint
    whose similarity to the query is at least the threshold; a similarity
    equal to the threshold is kept; and every entry of a ranking, for every
    threshold and limit, comes from a candidate that has a fingerprint. *)
Theorem threshold_filter (q : list float) (t : float)
    (before : list Product) (p : Product) (after : list Product) :
  forallb (well_formed q) (before ++ p :: after) = true ->
  exists r1 own r2,
    score_products q t [] before = Return r1 /\
    score_products q t [] after = Return r2 /\
    score_products q t [] (before ++ p :: after) = Return (r1 ++ own ++ r2) /\
    (forall s, own = [result_entry p s] <-> kept q t p s) /\
    (own = [] <-> forall s, ~ kept q t p s) /\
    (forall f s, embedding p = Some f -> f <> [] -> np_dot q f = Some s ->
                 eqb s t = true -> own = [result_entry p s]) /\
    (forall limit, exists out,
        rank_products q (before ++ p :: after) t limit = Return out /\
        forall r, In r out ->
          exists p' s, In p' (before ++ p :: after) /\ kept q t p' s /\
                       r = result_entry p' s).
Proof.
  intros H.
  pose proof H as H'. rewrite forallb_app in H'.
  apply andb_true_iff in H' as [Hb Hpa]. cbn in Hpa.
  apply andb_true_iff in Hpa as [Hp Ha].
  exists (flat_map (contribution q t) before), (contribution q t p),
    (flat_map (contribution q t) after).
  repeat split.
  - now rewrite (score_products_well_formed q t before [] Hb).
  - now rewrite (score_products_well_formed q t after [] Ha).
  - rewrite (score_products_well_formed q t _ [] H).
    now rewrite flat_map_app.
  - intros E. destruct (contribution_cases q t p) as [(s' & K & E')|(_ & E')];
      rewrite E' in E; try discriminate.
    injection E as E. now subst.
  - intros K. destruct (contribution_cases q t p) as [(s' & K' & E')|(N & _)].
    + now rewrite (kept_functional q t p s s' K K').
    + now destruct (N s).
  - intros E s K.
    destruct (contribution_cases q t p) as [(s' & K' & E')|(N & _)].
    + rewrite E' in E. discriminate.
    + now apply (N s).
  - intros N. destruct (contribution_cases q t p) as [(s' & K' & _)|(_ & E')];
      auto. now destruct (N s').
  - intros f s Hf Hne Hd He.
    assert (K : kept q t p s).
    { exists f. repeat split; auto. now apply eqb_ge. }
    destruct (contribution_cases q t p) as [(s' & K' & E')|(N & _)].
    + now rewrite (kept_functional q t p s s' K K').
    + now destruct (N s).
  - intros limit. eexists. split.
    + apply rank_products_well_formed; auto.
    + intros r Hr. apply in_slice_to in Hr.
      apply (Permutation_in _ (sort_reverse_perm _)) in Hr.
      apply in_flat_map in Hr as (p' & Hin & Hr).
      apply in_contribution in Hr as (s & K & ->). eauto.
Qed.

Lemma threshold_filter_witness :
  forallb (well_formed Sample.query) ([Sample.A] ++ Sample.B :: [Sample.D]) = true /\
  score_products Sample.query float_0_5 [] ([Sample.A] ++ Sample.B :: [Sample.D])
  = Return [result_entry Sample.A Sample.f0_9; result_entry Sample.B float_0_5].
Proof.
  split; [reflexivity|].
  destruct (threshold_filter Sample.query float_0_5 [Sample.A] Sample.B
              [Sample.D] eq_refl)
    as (r1 & own & r2 & H1 & H2 & H & _ & _ & Heq & _).
  rewrite H. f_equal.
  rewrite (Heq [float_0_5] float_0_5 eq_refl).
  - vm_compute in H1, H2. injection H1 as <-. injection H2 as <-. reflexivity.
  - discriminate.
  - vm_compute. reflexivity.
  - vm_compute. reflexivity.
Defined.

(** C1 fails as stated: next to a candidate whose fingerprint has another
    dimension, a candidate with a non-empty fingerprint and a similarity
    above the threshold contributes no entry: the loop raises and the route
    answers 500. *)
Lemma threshold_filter_counterexample :
  kept Sample.query float_0_3 Sample.A Sample.f0_9 /\
  score_products Sample.query float_0_3 [] [Sample.Bad; Sample.A]
  = Raise ValueError /\
  (forall results,
      score_products Sample.query float_0_3 [] [Sample.Bad; Sample.A]
      <> Return results) /\
  fst (search_by_upload Sample.env Sample.upload None None None
         (Sample.world_of [Sample.Bad; Sample.A]))
  = Raise (HTTPException 500).
Proof.
  split.
  - exists [Sample.f0_9]. repeat split; try discriminate;
      vm_compute; reflexivity.
  - split; [vm_compute; reflexivity|]. split.
    + intros results H. vm_compute in H. discriminate.
    + vm_compute. reflexivity.
Qed.

(** C2: the ranking is sorted by similarity score, non-increasing, and
    entries with equal scores keep the order their candidates had in the
    input: the sort is stable and has no secondary key. *)
Theorem ranking_sorted_stable (q : list float) (ps : list Product)
    (t : float) (limit : Z) :
  forallb (well_formed q) ps = true ->
  exists sorted out,
    rank_products q ps t limit = Return out /\
    out = slice_to sorted limit /\
    Permutation sorted (flat_map (contribution q t) ps) /\
    StronglySorted score_ge sorted /\
    StronglySorted score_ge out /\
    (forall v, with_score v sorted
               = with_score v (flat_map (contribution q t) ps)) /\
    (forall v, exists rest,
        with_score v (flat_map (contribution q t) ps)
        = with_score v out ++ rest).
Proof.
  intros H.
  set (survivors := flat_map (contribution q t) ps).
  assert (S : StronglySorted score_ge (sort_reverse survivors)).
  { apply sort_reverse_sorted, survivors_scores_defined. }
  exists (sort_reverse survivors), (slice_to (sort_reverse survivors) limit).
  split; [now apply rank_products_well_formed|].
  split; [reflexivity|].
  split; [apply sort_reverse_perm|].
  split; [exact S|].
  destruct (slice_to_prefix (sort_reverse survivors) limit) as [n ->].
  split; [now apply StronglySorted_firstn|].
  split; [intros v; apply sort_reverse_stable|].
  intros v. exists (with_score v (skipn n (sort_reverse survivors))).
  rewrite <- with_score_firstn. symmetry. apply sort_reverse_stable.
Qed.

Lemma ranking_sorted_stable_witness :
  forallb (well_formed Sample.query)
    [Sample.B; Sample.A; Sample.B'; Sample.E] = true /\
  exists out,
    rank_products Sample.query [Sample.B; Sample.A; Sample.B'; Sample.E]
      float_0_5 2 = Return out /\
    StronglySorted score_ge out.
Proof.
  split; [reflexivity|].
  destruct (ranking_sorted_stable Sample.query
              [Sample.B; Sample.A; Sample.B'; Sample.E] float_0_5 2 eq_refl)
    as (sorted & out & H & _ & _ & _ & S & _).
  exists out. split; assumption.
Defined.

Lemma firstn_all_le {A : Type} (n : nat) (l : list A) :
  (List.length l <= n)%nat -> firstn n l = l.
Proof. intros H. now apply firstn_all2. Qed.

(** C5, as amended: for every threshold and every candidate list in which
    each non-empty fingerprint has the dimension of the query, the ranking
    with [limit = 0] is empty; with a limit [k >= 0] it consists of the
    first [k] surviving entries in sorted order, and of all of them when
    fewer than [k] survive. *)
Theorem limit_truncates (q : list float) (ps : list Product) (t : float) (k : Z) :
  forallb (well_formed q) ps = true ->
  0 <= k ->
  rank_products q ps t 0 = Return [] /\
  rank_products q ps t k
  = Return (firstn (Z.to_nat k) (sort_reverse (flat_map (contribution q t) ps))) /\
  (Z.of_nat (List.length (flat_map (contribution q t) ps)) <= k ->
   rank_products q ps t k
   = Return (sort_reverse (flat_map (contribution q t) ps))).
Proof.
  intros H Hk. rewrite !(rank_products_well_formed q ps t _ H).
  unfold slice_to. cbn [Z.leb Z.compare Z.to_nat firstn].
  destruct (0 <=? k) eqn:E; [|apply Z.leb_gt in E; lia].
  repeat split; auto.
  intros Hl. f_equal. apply firstn_all_le.
  rewrite (Permutation_length (sort_reverse_perm _)). lia.
Qed.

Lemma limit_truncates_witness :
  forallb (well_formed Sample.query) [Sample.A; Sample.B; Sample.C; Sample.D]
  = true /\ 0 <= 2 /\
  rank_products Sample.query [Sample.A; Sample.B; Sample.C; Sample.D]
    Sample.f0_6 0 = Return [].
Proof.
  split; [reflexivity|]. split; [lia|].
  apply (limit_truncates Sample.query
           [Sample.A; Sample.B; Sample.C; Sample.D] Sample.f0_6 2 eq_refl).
  lia.
Defined.

(** C5 fails as stated: with a candidate whose fingerprint has another
    dimension, the loop raises before the slice is taken, and a search with
    [limit = 0] answers 500 instead of the empty list. *)
Lemma limit_truncates_counterexample :
  rank_products Sample.query [Sample.A; Sample.Bad] float_0_3 0
  = Raise ValueError /\
  fst (search_by_upload Sample.env Sample.upload (Some 0) None None
         (Sample.world_of [Sample.A; Sample.Bad]))
  = Raise (HTTPException 500) /\
  fst (search_by_upload Sample.env Sample.upload (Some 0) None None
         (Sample.world_of [Sample.A; Sample.Bad]))
  <> Return [].
Proof.
  split; [vm_compute; reflexivity|]. split; [vm_compute; reflexivity|].
  vm_compute. discriminate.
Qed.

(** ** The search routes *)

Section Search.

Variable env : Env.
Variable e : Image env -> option (list float).
Hypothesis embedder_ready : embedder env = Some e.

Lemma search_by_upload_ranks (file : list Init.Byte.byte) (image : Image env)
    (q : list float) (limit : option Z) (t : option float)
    (category' : option string) (w : World) :
  pil_open env file = Some image ->
  e image = Some q ->
  search_by_upload env file limit t category' w
  = (http_500 (rank_products q (candidates category' (db_products w))
                 (Form float_0_3 t) (Form 10 limit)), w).
Proof.
  intros Hf He. unfold search_by_upload. rewrite embedder_ready.
  unfold try_except, bind, lift, find_to_list, load_image_from_bytes,
    get_image_embedding, raise.
  rewrite Hf, He.
  destruct (rank_products _ _ _ _); reflexivity.
Qed.

Lemma search_by_url_ranks (url : string) (image : Image env)
    (q : list float) (limit : option Z) (t : option float)
    (category' : option string) (w : World) :
  http_get_image env (log w) url = Some image ->
  e image = Some q ->
  search_by_url env url limit t category' w
  = (http_500 (rank_products q (candidates category' (db_products w))
                 (Form float_0_3 t) (Form 10 limit)),
     record_event (EvGet url) w).
Proof.
  intros Hf He. unfold search_by_url. rewrite embedder_ready.
  unfold try_except, bind, lift, find_to_list, load_image_from_url,
    get_image_embedding, raise.
  rewrite Hf, He. cbn.
  destruct (rank_products _ _ _ _); reflexivity.
Qed.

End Search.

Lemma candidates_matches (category' : option string) (docs : list Product) :
  candidates category' docs = firstn 1000 (filter (matches category') docs).
Proof.
  unfold candidates, to_list, find, filter_query, matches.
  destruct category' as [c|].
  - destruct (String.eqb c ""); auto.
    f_equal. symmetry. apply forallb_filter_id, forallb_forall. auto.
  - f_equal. symmetry. apply forallb_filter_id, forallb_forall. auto.
Qed.

Lemma candidates_small_store (category' : option string) (docs : list Product) :
  (List.length docs <= 1000)%nat ->
  category' <> Some "" ->
  candidates category' docs = scan_spec category' docs.
Proof.
  intros Hl Hc. unfold candidates, to_list, find, filter_query, scan_spec.
  destruct category' as [c|].
  - destruct (String.eqb_spec c ""); [subst; congruence|].
    apply firstn_all2.
    eapply Nat.le_trans; [apply filter_length_le|exact Hl].
  - now apply firstn_all2.
Qed.

(** C3, as amended: the ranking step of both search routes is handed the
    first 1000 documents, in the order of the collection, among those whose
    category equals the filter value, or among all documents when the
    category is absent or the empty string. *)
Theorem candidate_set_capped (env : Env) (e : Image env -> option (list float))
    (file : list Init.Byte.byte) (url : string) (image : Image env)
    (q : list float) (limit : option Z) (t : option float)
    (category' : option string) (w : World) :
  embedder env = Some e ->
  pil_open env file = Some image ->
  http_get_image env (log w) url = Some image ->
  e image = Some q ->
  find_to_list category' w
  = (Return (firstn 1000 (filter (matches category') (db_products w))), w) /\
  search_by_upload env file limit t category' w
  = (http_500 (rank_products q
                 (firstn 1000 (filter (matches category') (db_products w)))
                 (Form float_0_3 t) (Form 10 limit)), w) /\
  search_by_url env url limit t category' w
  = (http_500 (rank_products q
                 (firstn 1000 (filter (matches category') (db_products w)))
                 (Form float_0_3 t) (Form 10 limit)),
     record_event (EvGet url) w).
Proof.
  intros He Hf Hu Hq. rewrite <- candidates_matches. repeat split.
  - exact (search_by_upload_ranks env e He file image q limit t category' w Hf Hq).
  - exact (search_by_url_ranks env e He url image q limit t category' w Hu Hq).
Qed.

Lemma candidate_set_capped_witness :
  embedder Sample.env = Some (fun _ => Some Sample.query) /\
  fst (search_by_upload Sample.env Sample.upload (Some 2) (Some Sample.f0_6)
         (Some "Electronics")
         (Sample.world_of [Sample.C; Sample.A; Sample.D; Sample.B]))
  = Return [result_entry Sample.A Sample.f0_9].
Proof.
  split; [reflexivity|].
  destruct (candidate_set_capped Sample.env (fun _ => Some Sample.query)
              Sample.upload "u" "u" Sample.query (Some 2) (Some Sample.f0_6)
              (Some "Electronics")
              (Sample.world_of [Sample.C; Sample.A; Sample.D; Sample.B])
              eq_refl eq_refl eq_refl eq_refl) as (_ & H & _).
  rewrite H. vm_compute. reflexivity.
Defined.

(** C3 fails as stated: a stored document beyond the first 1000 is never
    handed to the ranking, and the empty string as category selects every
    document, not those whose category is the empty string. *)
Lemma candidate_set_counterexample :
  In Sample.C Sample.big_store /\
  In Sample.C (scan_spec None Sample.big_store) /\
  ~ In Sample.C (candidates None Sample.big_store) /\
  candidates None Sample.big_store <> scan_spec None Sample.big_store /\
  candidates (Some "") [Sample.A] = [Sample.A] /\
  scan_spec (Some "") [Sample.A] = [].
Proof.
  assert (E : candidates None Sample.big_store = repeat Sample.A 1000).
  { vm_compute. reflexivity. }
  assert (I : In Sample.C Sample.big_store).
  { apply in_or_app. right. now left. }
  assert (N : ~ In Sample.C (candidates None Sample.big_store)).
  { rewrite E. intros H. apply repeat_spec in H. discriminate. }
  repeat split; auto.
  intros H. apply N. rewrite H. exact I.
Qed.

(** C4, as amended: when a candidate of the scan has a non-empty fingerprint
    whose dimension differs from the query's, the search as a whole fails
    with status 500 and returns no result. *)
Theorem dimension_mismatch_fails_search (env : Env)
    (e : Image env -> option (list float)) (file : list Init.Byte.byte)
    (image : Image env) (q : list float) (limit : option Z) (t : option float)
    (category' : option string) (w : World) (p : Product) (f : list float) :
  embedder env = Some e ->
  pil_open env file = Some image ->
  e image = Some q ->
  In p (candidates category' (db_products w)) ->
  embedding p = Some f ->
  f <> [] ->
  List.length f <> List.length q ->
  rank_products q (candidates category' (db_products w))
    (Form float_0_3 t) (Form 10 limit) = Raise ValueError /\
  search_by_upload env file limit t category' w
  = (Raise (HTTPException 500), w).
Proof.
  intros He Hf Hq Hin Hemb Hne Hlen.
  assert (R : rank_products q (candidates category' (db_products w))
                (Form float_0_3 t) (Form 10 limit) = Raise ValueError).
  { apply rank_products_malformed.
    destruct (forallb _ _) eqn:F; auto.
    rewrite forallb_forall in F. specialize (F p Hin).
    unfold well_formed in F. rewrite Hemb in F.
    destruct f as [|x f]; [congruence|].
    apply Nat.eqb_eq in F. congruence. }
  split; [exact R|].
  rewrite (search_by_upload_ranks env e He file image q limit t category' w Hf Hq).
  now rewrite R.
Qed.

Lemma dimension_mismatch_fails_search_witness :
  In Sample.Bad (candidates None [Sample.A; Sample.Bad; Sample.C]) /\
  search_by_upload Sample.env Sample.upload None None None
    (Sample.world_of [Sample.A; Sample.Bad; Sample.C])
  = (Raise (HTTPException 500),
     Sample.world_of [Sample.A; Sample.Bad; Sample.C]).
Proof.
  split; [right; left; reflexivity|].
  apply (dimension_mismatch_fails_search Sample.env (fun _ => Some Sample.query)
           Sample.upload "u" Sample.query None None None
           (Sample.world_of [Sample.A; Sample.Bad; Sample.C])
           Sample.Bad [Sample.one; Sample.one]);
    try reflexivity.
  - right; left; reflexivity.
  - discriminate.
  - cbn. lia.
Defined.

(** C4 fails as stated: with one malformed candidate in the store the
    search does not return the ranking of the other candidates, it fails. *)
Lemma dimension_mismatch_counterexample :
  rank_products Sample.query [Sample.A; Sample.C] float_0_3 10
  = Return [result_entry Sample.A Sample.f0_9;
            result_entry Sample.C Sample.f0_85] /\
  fst (search_by_upload Sample.env Sample.upload None None None
         (Sample.world_of [Sample.A; Sample.Bad; Sample.C]))
  = Raise (HTTPException 500) /\
  fst (search_by_upload Sample.env Sample.upload None None None
         (Sample.world_of [Sample.A; Sample.Bad; Sample.C]))
  <> Return [result_entry Sample.A Sample.f0_9;
             result_entry Sample.C Sample.f0_85].
Proof.
  repeat split; try (vm_compute; reflexivity).
  vm_compute. discriminate.
Qed.

(** C8: when the form fields are omitted, both search routes rank the
    candidates with [limit = 10] and [min_similarity = 0.3], the binary64
    value of 3/10; a field that is given is used as it is. *)
Theorem search_defaults (env : Env) (e : Image env -> option (list float))
    (file : list Init.Byte.byte) (url : string) (image image' : Image env)
    (q q' : list float) (limit : option Z) (t : option float)
    (category' : option string) (w : World) :
  embedder env = Some e ->
  pil_open env file = Some image ->
  e image = Some q ->
  http_get_image env (log w) url = Some image' ->
  e image' = Some q' ->
  search_by_upload env file None None category' w
  = (http_500 (rank_products q (candidates category' (db_products w))
                 float_0_3 10), w) /\
  search_by_url env url None None category' w
  = (http_500 (rank_products q' (candidates category' (db_products w))
                 float_0_3 10),
     record_event (EvGet url) w) /\
  search_by_upload env file limit t category' w
  = (http_500 (rank_products q (candidates category' (db_products w))
                 (match t with Some v => v | None => float_0_3 end)
                 (match limit with Some v => v | None => 10 end)), w) /\
  search_by_url env url limit t category' w
  = (http_500 (rank_products q' (candidates category' (db_products w))
                 (match t with Some v => v | None => float_0_3 end)
                 (match limit with Some v => v | None => 10 end)),
     record_event (EvGet url) w) /\
  float_0_3 = div (of_int 3) (of_int 10).
Proof.
  intros E Hf Hq Hu Hq'.
  split; [exact (search_by_upload_ranks env e E file image q None None
                   category' w Hf Hq)|].
  split; [exact (search_by_url_ranks env e E url image' q' None None
                   category' w Hu Hq')|].
  split; [exact (search_by_upload_ranks env e E file image q limit t
                   category' w Hf Hq)|].
  split; [exact (search_by_url_ranks env e E url image' q' limit t
                   category' w Hu Hq')|].
  vm_compute. reflexivity.
Qed.

Lemma search_defaults_witness :
  embedder Sample.env = Some (fun _ => Some Sample.query) /\
  search_by_upload Sample.env Sample.upload None None None
    (Sample.world_of (Sample.Low :: repeat Sample.A 12))
  = (Return (repeat (result_entry Sample.A Sample.f0_9) 10),
     Sample.world_of (Sample.Low :: repeat Sample.A 12)).
Proof.
  split; [reflexivity|].
  destruct (search_defaults Sample.env (fun _ => Some Sample.query)
              Sample.upload "u" "u" "u" Sample.query Sample.query None None
              None (Sample.world_of (Sample.Low :: repeat Sample.A 12))
              eq_refl eq_refl eq_refl eq_refl eq_refl) as (H & _).
  rewrite H. vm_compute. reflexivity.
Defined.


Lemma embedder_unavailable (env : Env) :
  embedder env = None <-> CLIP_AVAILABLE env = false \/ CLIPEmbedder env = None.
Proof.
  unfold embedder.
  destruct (CLIP_AVAILABLE env), (CLIPEmbedder env); split; auto;
    intros [|]; congruence.
Qed.

(** C9: when the encoder failed to initialise, creating a product, both
    searches and the seeding fail at once with status 503, before any
    download or insertion: the collection and the log of outside
    interactions are unchanged. *)
Theorem encoder_unavailable_fails_fast (env : Env) (product : ProductCreate)
    (file : list Init.Byte.byte) (url : string) (limit : option Z)
    (t : option float) (category' : option string) (w : World) :
  CLIP_AVAILABLE env = false \/ CLIPEmbedder env = None ->
  create_product env product w = (Raise (HTTPException 503), w) /\
  search_by_upload env file limit t category' w
  = (Raise (HTTPException 503), w) /\
  search_by_url env url limit t category' w
  = (Raise (HTTPException 503), w) /\
  seed_products env w = (Raise (HTTPException 503), w).
Proof.
  intros H. apply embedder_unavailable in H.
  unfold create_product, search_by_upload, search_by_url, seed_products.
  rewrite H. repeat split.
Qed.

Lemma encoder_unavailable_fails_fast_witness :
  (CLIP_AVAILABLE Sample.env_down = false \/ CLIPEmbedder Sample.env_down = None) /\
  seed_products Sample.env_down Sample.empty_world
  = (Raise (HTTPException 503), Sample.empty_world) /\
  create_product Sample.env_down Sample.new_item (Sample.world_of [Sample.A])
  = (Raise (HTTPException 503), Sample.world_of [Sample.A]).
Proof.
  split; [left; reflexivity|]. split.
  - apply (encoder_unavailable_fails_fast Sample.env_down Sample.new_item
             Sample.upload "u" None None None Sample.empty_world).
    left; reflexivity.
  - apply (encoder_unavailable_fails_fast Sample.env_down Sample.new_item
             Sample.upload "u" None None None (Sample.world_of [Sample.A])).
    left; reflexivity.
Defined.

(** ** Seeding *)

Section Seeding.

Variable env : Env.
Variable e : Image env -> option (list float).

Lemma seed_one_spec (product_data : SampleProduct) (w : World) :
  downloads (snd (seed_one env e product_data w))
  = downloads w ++ [EvGet (sp_image_url product_data)] /\
  match fst (seed_one env e product_data w) with
  | Return _ =>
      List.length (db_products (snd (seed_one env e product_data w)))
      = S (List.length (db_products w))
  | Raise _ =>
      db_products (snd (seed_one env e product_data w)) = db_products w
  end.
Proof.
  unfold seed_one, bind, load_image_from_url, lift, get_image_embedding,
    new_Product, insert_one, record_event, downloads.
  destruct (http_get_image env (log w) (sp_image_url product_data)) as [image|];
    cbn [fst snd log db_products].
  - destruct (e image) as [v|]; cbn [fst snd log db_products].
    + destruct (insert_acknowledged env _); cbn [fst snd log db_products];
        rewrite !filter_app; cbn; rewrite ?app_nil_r, ?length_app; cbn;
        split; auto; lia.
    + rewrite filter_app. auto.
  - rewrite filter_app. auto.
Qed.

(** A failure is counted and the loop goes on with the next sample. *)
Lemma seed_loop_failure (product_data : SampleProduct)
    (rest : list SampleProduct) (inserted failed : nat) (w w' : World) (x : exn) :
  seed_one env e product_data w = (Raise x, w') ->
  seed_loop env e (product_data :: rest) inserted failed w
  = seed_loop env e rest inserted (S failed) w'.
Proof. intros H. cbn [seed_loop]. now rewrite H. Qed.

Lemma seed_loop_success (product_data : SampleProduct)
    (rest : list SampleProduct) (inserted failed : nat) (w w' : World) (u : unit) :
  seed_one env e product_data w = (Return u, w') ->
  seed_loop env e (product_data :: rest) inserted failed w
  = seed_loop env e rest (S inserted) failed w'.
Proof. intros H. cbn [seed_loop]. now rewrite H. Qed.

Lemma seed_loop_spec (samples : list SampleProduct) :
  forall (inserted failed : nat) (w : World),
  exists inserted' failed' w',
    seed_loop env e samples inserted failed w = (Return (inserted', failed'), w') /\
    (inserted' + failed' = inserted + failed + List.length samples)%nat /\
    (inserted <= inserted')%nat /\
    List.length (db_products w')
    = (List.length (db_products w) + (inserted' - inserted))%nat /\
    downloads w'
    = downloads w ++ map (fun s => EvGet (sp_image_url s)) samples.
Proof.
  induction samples as [|pd rest IH]; intros i f w.
  - exists i, f, w. cbn. rewrite app_nil_r. repeat split; lia.
  - destruct (seed_one_spec pd w) as [Hd Hr].
    destruct (seed_one env e pd w) as [[u|x] w1] eqn:E; cbn [fst snd] in *.
    + rewrite (seed_loop_success pd rest i f w w1 u E).
      destruct (IH (S i) f w1) as (i' & f' & w' & H & Hs & Hi & Hl & Hg).
      exists i', f', w'. rewrite H, Hg, Hd, Hl, Hr, <- app_assoc. cbn.
      repeat split; lia.
    + rewrite (seed_loop_failure pd rest i f w w1 x E).
      destruct (IH i (S f) w1) as (i' & f' & w' & H & Hs & Hi & Hl & Hg).
      exists i', f', w'. rewrite H, Hg, Hd, Hl, Hr, <- app_assoc. cbn.
      repeat split; lia.
Qed.

Hypothesis embedder_ready : embedder env = Some e.

Lemma seed_products_nonempty (w : World) :
  db_products w <> [] ->
  seed_products env w
  = (Return (AlreadySeeded (List.length (db_products w))), w).
Proof.
  intros H. unfold seed_products. rewrite embedder_ready.
  unfold bind, count_documents, ret.
  destruct (db_products w); [congruence|reflexivity].
Qed.

Lemma seed_products_empty (w : World) :
  db_products w = [] ->
  seed_products env w
  = (let '(r, w') := seed_loop env e sample_products 0%nat 0%nat w in
     match r with
     | Return counts => (Return (Seeded (fst counts) (snd counts)), w')
     | Raise x => (Raise x, w')
     end).
Proof.
  intros H. unfold seed_products. rewrite embedder_ready.
  unfold bind, count_documents, ret. rewrite H. cbn [List.length Nat.ltb Nat.leb].
  destruct (seed_loop env e sample_products 0%nat 0%nat w) as [[c|x] w'];
    reflexivity.
Qed.

End Seeding.

Lemma seed_products_keeps_nonempty (env : Env) (w : World) :
  db_products w <> [] -> exists r, seed_products env w = (r, w).
Proof.
  intros H. destruct (embedder env) as [e|] eqn:E.
  - eexists. now apply (seed_products_nonempty env e E).
  - exists (Raise (HTTPException 503)). unfold seed_products. now rewrite E.
Qed.

Lemma seed_products_seeded (env : Env) (w w' : World) (inserted failed : nat) :
  seed_products env w = (Return (Seeded inserted failed), w') ->
  exists e, embedder env = Some e /\ db_products w = [] /\
            List.length (db_products w') = inserted.
Proof.
  intros H. destruct (embedder env) as [e|] eqn:E.
  - exists e. split; auto.
    destruct (db_products w) as [|d ds] eqn:D.
    + split; auto.
      rewrite (seed_products_empty env e E w D) in H.
      destruct (seed_loop_spec env e sample_products 0%nat 0%nat w)
        as (i & f & w1 & L & _ & _ & Hl & _).
      rewrite L in H. injection H as <- <- <-.
      rewrite Hl, D. cbn. lia.
    + rewrite (seed_products_nonempty env e E w) in H; [|congruence].
      discriminate.
  - unfold seed_products in H. rewrite E in H. discriminate.
Qed.

(** C6: seeding is guarded: when the collection holds at least one
    document, [seed_products] inserts nothing, so the number of documents
    is unchanged; in particular a second call right after a call that
    inserted documents changes nothing. *)
Theorem seeding_idempotent (env : Env) (w : World) :
  db_products w <> [] ->
  (exists r, seed_products env w = (r, w)) /\
  (forall e, embedder env = Some e ->
     seed_products env w
     = (Return (AlreadySeeded (List.length (db_products w))), w)) /\
  (forall r w', seed_products env w = (r, w') ->
     List.length (db_products w') = List.length (db_products w)) /\
  (forall w0 inserted failed,
     seed_products env w0 = (Return (Seeded inserted failed), w) ->
     exists e, embedder env = Some e /\
       seed_products env w = (Return (AlreadySeeded inserted), w)).
Proof.
  intros H. split; [now apply seed_products_keeps_nonempty|].
  split; [intros e E; now apply (seed_products_nonempty env e E)|].
  split.
  - intros r w' Hs.
    destruct (seed_products_keeps_nonempty env w H) as [r' Hr].
    rewrite Hr in Hs. now injection Hs as _ <-.
  - intros w0 i f Hs.
    destruct (seed_products_seeded env w0 w i f Hs) as (e & E & _ & Hl).
    exists e. split; auto.
    rewrite (seed_products_nonempty env e E w H). now rewrite Hl.
Qed.

Lemma seeding_idempotent_witness :
  db_products (snd (seed_products Sample.env Sample.empty_world)) <> [] /\
  seed_products Sample.env (snd (seed_products Sample.env Sample.empty_world))
  = (Return (AlreadySeeded 53),
     snd (seed_products Sample.env Sample.empty_world)).
Proof.
  assert (N : db_products (snd (seed_products Sample.env Sample.empty_world))
              <> []).
  { vm_compute. discriminate. }
  split; [exact N|].
  destruct (seeding_idempotent Sample.env _ N) as (_ & _ & _ & H).
  destruct (H Sample.empty_world 53%nat 0%nat) as (e & _ & H').
  - vm_compute. reflexivity.
  - exact H'.
Defined.



Example seeding_with_one_failure :
  fst (seed_products Sample.env_flaky Sample.empty_world)
  = Return (Seeded 52 1).
Proof. vm_compute. reflexivity. Qed.

Example seeding_all_succeed :
  fst (seed_products Sample.env Sample.empty_world) = Return (Seeded 53 0).
Proof. vm_compute. reflexivity. Qed.

Example search_on_empty_store :
  search_by_upload Sample.env Sample.upload None None None Sample.empty_world
  = (Return [], Sample.empty_world).
Proof. vm_compute. reflexivity. Qed.

(** ** Creating a product *)

Lemma create_product_cases (env : Env) (e : Image env -> option (list float))
    (product : ProductCreate) (w : World) :
  embedder env = Some e ->
  create_product env product w =
  match http_get_image env (log w) (pc_image_url product) with
  | None => (Raise (HTTPException 500),
             record_event (EvGet (pc_image_url product)) w)
  | Some image =>
      match e image with
      | None => (Raise (HTTPException 500),
                 record_event (EvGet (pc_image_url product)) w)
      | Some v =>
          if insert_acknowledged env (log w ++ [EvGet (pc_image_url product)])
          then (Return (created_doc env product v
                          (log w ++ [EvGet (pc_image_url product)])),
                {| db_products :=
                     db_products w ++
                     [created_doc env product v
                        (log w ++ [EvGet (pc_image_url product)])];
                   log := (log w ++ [EvGet (pc_image_url product)]) ++
                          [EvInsert (created_doc env product v
                             (log w ++ [EvGet (pc_image_url product)]))] |})
          else (Raise (HTTPException 500),
                record_event
                  (EvInsert (created_doc env product v
                     (log w ++ [EvGet (pc_image_url product)])))
                  (record_event (EvGet (pc_image_url product)) w))
      end
  end.
Proof.
  intros E. unfold create_product. rewrite E.
  unfold try_except, bind, load_image_from_url, lift, get_image_embedding,
    new_Product, insert_one, ret, raise, record_event, created_doc.
  destruct (http_get_image env (log w) (pc_image_url product)) as [image|];
    cbn [fst snd log db_products]; auto.
  destruct (e image) as [v|]; cbn [fst snd log db_products]; auto.
  destruct (insert_acknowledged env _); reflexivity.
Qed.

(** X1: when the download, the encoding and the insertion succeed,
    [create_product] returns the document built from the request and the
    encoder's vector, appends exactly this document to the collection, and
    has performed one download followed by one insertion. *)
Theorem create_product_success (env : Env)
    (e : Image env -> option (list float)) (product : ProductCreate)
    (image : Image env) (v : list float) (w : World) :
  embedder env = Some e ->
  http_get_image env (log w) (pc_image_url product) = Some image ->
  e image = Some v ->
  insert_acknowledged env (log w ++ [EvGet (pc_image_url product)]) = true ->
  exists doc w',
    create_product env product w = (Return doc, w') /\
    db_products w' = db_products w ++ [doc] /\
    log w' = log w ++ [EvGet (pc_image_url product); EvInsert doc] /\
    name doc = pc_name product /\
    category doc = pc_category product /\
    image_url doc = pc_image_url product /\
    price doc = pc_price product /\
    description doc = pc_description product /\
    embedding doc = Some v.
Proof.
  intros E Hg He Hi.
  rewrite (create_product_cases env e product w E), Hg, He, Hi.
  do 2 eexists. split; [reflexivity|]. cbn [db_products log].
  rewrite <- app_assoc. cbn. repeat split.
Qed.

Lemma create_product_success_witness :
  embedder Sample.env = Some (fun _ => Some Sample.query) /\
  exists doc w',
    create_product Sample.env Sample.new_item (Sample.world_of [Sample.A])
    = (Return doc, w') /\
    db_products w' = [Sample.A; doc] /\ name doc = "Lamp".
Proof.
  split; [reflexivity|].
  destruct (create_product_success Sample.env (fun _ => Some Sample.query)
              Sample.new_item "http://lamp" Sample.query
              (Sample.world_of [Sample.A]) eq_refl eq_refl eq_refl eq_refl)
    as (doc & w' & H & Hd & _ & Hn & _).
  exists doc, w'. repeat split; assumption.
Defined.

(** X2: [create_product] is all or nothing on the collection: either it
    returns a document and the collection has grown by exactly that
    document, which carries the fields of the request and an embedding, or
    it raises status 503 or 500 and the collection is unchanged. *)
Theorem create_product_all_or_nothing (env : Env) (product : ProductCreate)
    (w : World) :
  (exists doc w',
      create_product env product w = (Return doc, w') /\
      db_products w' = db_products w ++ [doc] /\
      name doc = pc_name product /\
      category doc = pc_category product /\
      image_url doc = pc_image_url product /\
      exists v, embedding doc = Some v) \/
  (exists code w',
      create_product env product w = (Raise (HTTPException code), w') /\
      (code = 503 \/ code = 500) /\
      db_products w' = db_products w).
Proof.
  destruct (embedder env) as [e|] eqn:E.
  - rewrite (create_product_cases env e product w E).
    destruct (http_get_image env (log w) (pc_image_url product)) as [image|].
    + destruct (e image) as [v|].
      * destruct (insert_acknowledged env _).
        -- left. do 2 eexists. split; [reflexivity|]. cbn.
           repeat split. now exists v.
        -- right. exists 500. eexists. split; [reflexivity|]. cbn. auto.
      * right. exists 500. eexists. split; [reflexivity|]. cbn. auto.
    + right. exists 500. eexists. split; [reflexivity|]. cbn. auto.
  - right. exists 503, w. unfold create_product. rewrite E. cbn. auto.
Qed.

(** ** What a search does to the world and how it fails *)

Lemma search_by_upload_world (env : Env) (file : list Init.Byte.byte)
    (limit : option Z) (t : option float) (category' : option string)
    (w : World) :
  snd (search_by_upload env file limit t category' w) = w.
Proof.
  unfold search_by_upload.
  destruct (embedder env) as [e|]; [|reflexivity].
  unfold try_except, bind, lift, find_to_list, load_image_from_bytes,
    get_image_embedding, raise.
  destruct (pil_open env file) as [image|]; auto.
  destruct (e image) as [q|]; auto.
  destruct (rank_products _ _ _ _); reflexivity.
Qed.

Lemma search_by_url_world (env : Env) (url : string)
    (limit : option Z) (t : option float) (category' : option string)
    (w : World) :
  snd (search_by_url env url limit t category' w)
  = match embedder env with
    | None => w
    | Some _ => record_event (EvGet url) w
    end.
Proof.
  unfold search_by_url.
  destruct (embedder env) as [e|]; [|reflexivity].
  unfold try_except, bind, lift, find_to_list, load_image_from_url,
    get_image_embedding, raise.
  destruct (http_get_image env (log w) url) as [image|]; auto.
  cbn [fst snd].
  destruct (e image) as [q|]; auto.
  destruct (rank_products _ _ _ _); reflexivity.
Qed.

(** X3: a search never writes: the upload search leaves the collection and
    the log of outside interactions as they were, and the URL search leaves
    the collection as it was and adds at most the one download of the
    given URL to the log, whatever the outcome. *)
Theorem search_never_writes (env : Env) (file : list Init.Byte.byte)
    (url : string) (limit : option Z) (t : option float)
    (category' : option string) (w : World) :
  snd (search_by_upload env file limit t category' w) = w /\
  db_products (snd (search_by_url env url limit t category' w))
  = db_products w /\
  (log (snd (search_by_url env url limit t category' w)) = log w \/
   log (snd (search_by_url env url limit t category' w))
   = log w ++ [EvGet url]).
Proof.
  split; [apply search_by_upload_world|].
  rewrite search_by_url_world.
  destruct (embedder env); cbn; auto.
Qed.

Lemma seed_products_ready_returns (env : Env)
    (e : Image env -> option (list float)) (w : World) :
  embedder env = Some e ->
  exists r, fst (seed_products env w) = Return r.
Proof.
  intros E. destruct (db_products w) as [|d ds] eqn:D.
  - rewrite (seed_products_empty env e E w D).
    destruct (seed_loop_spec env e sample_products 0%nat 0%nat w)
      as (i & f & w' & L & _).
    rewrite L. eexists. reflexivity.
  - rewrite (seed_products_nonempty env e E w); [|congruence].
    eexists. reflexivity.
Qed.

(** X4: the routes fail with two statuses only: 503 exactly when the
    encoder is missing, and 500 otherwise; the seeding never fails once the
    encoder is available. *)
Theorem route_error_statuses (env : Env) (product : ProductCreate)
    (file : list Init.Byte.byte) (url : string) (limit : option Z)
    (t : option float) (category' : option string) (w : World) :
  (forall x, fst (create_product env product w) = Raise x ->
     (x = HTTPException 503 /\ embedder env = None) \/
     (x = HTTPException 500 /\ embedder env <> None)) /\
  (forall x, fst (search_by_upload env file limit t category' w) = Raise x ->
     (x = HTTPException 503 /\ embedder env = None) \/
     (x = HTTPException 500 /\ embedder env <> None)) /\
  (forall x, fst (search_by_url env url limit t category' w) = Raise x ->
     (x = HTTPException 503 /\ embedder env = None) \/
     (x = HTTPException 500 /\ embedder env <> None)) /\
  (forall x, fst (seed_products env w) = Raise x ->
     x = HTTPException 503 /\ embedder env = None).
Proof.
  destruct (embedder env) as [e|] eqn:E.
  - split; [|split; [|split]]; intros x H.
    + right. split; [|discriminate].
      rewrite (create_product_cases env e product w E) in H.
      destruct (http_get_image env (log w) (pc_image_url product)) as [image|];
        [destruct (e image); [destruct (insert_acknowledged env _)|]|];
        cbn in H; congruence.
    + right. split; [|discriminate].
      unfold search_by_upload in H. rewrite E in H.
      unfold try_except, bind, lift, find_to_list, load_image_from_bytes,
        get_image_embedding, raise in H.
      destruct (pil_open env file) as [image|];
        [destruct (e image); [destruct (rank_products _ _ _ _)|]|];
        cbn in H; congruence.
    + right. split; [|discriminate].
      unfold search_by_url in H. rewrite E in H.
      unfold try_except, bind, lift, find_to_list, load_image_from_url,
        get_image_embedding, raise in H.
      destruct (http_get_image env (log w) url) as [image|]; cbn in H;
        [destruct (e image); [destruct (rank_products _ _ _ _)|]|];
        cbn in H; congruence.
    + destruct (seed_products_ready_returns env e w E) as [r Hr]. congruence.
  - unfold create_product, search_by_upload, search_by_url, seed_products.
    rewrite E. cbn.
    split; [|split; [|split]]; intros x H; try left; split; congruence.
Qed.

Lemma route_error_statuses_witness :
  fst (search_by_upload Sample.env [] None None None Sample.empty_world)
  = Raise (HTTPException 500) /\
  ((HTTPException 500 = HTTPException 503 /\ embedder Sample.env = None) \/
   (HTTPException 500 = HTTPException 500 /\ embedder Sample.env <> None)).
Proof.
  split; [reflexivity|].
  destruct (route_error_statuses Sample.env Sample.new_item []
              "http://bad" None None None Sample.empty_world)
    as (_ & H & _).
  apply H. reflexivity.
Defined.



Lemma slice_to_nil {A : Type} (limit : Z) : slice_to (@nil A) limit = [].
Proof.
  unfold slice_to. destruct (0 <=? limit); now rewrite firstn_nil.
Qed.



(** ** What a returned ranking contains *)

Lemma search_by_upload_returns (env : Env) (file : list Init.Byte.byte)
    (limit : option Z) (t : option float) (category' : option string)
    (w w' : World) (out : list SimilarProduct) :
  search_by_upload env file limit t category' w = (Return out, w') ->
  exists e image q,
    embedder env = Some e /\
    pil_open env file = Some image /\
    e image = Some q /\
    rank_products q (candidates category' (db_products w))
      (Form float_0_3 t) (Form 10 limit) = Return out.
Proof.
  unfold search_by_upload.
  destruct (embedder env) as [e|]; [|discriminate].
  unfold try_except, bind, lift, find_to_list, load_image_from_bytes,
    get_image_embedding, raise.
  destruct (pil_open env file) as [image|] eqn:P; [|discriminate].
  destruct (e image) as [q|] eqn:Q; [|discriminate].
  destruct (rank_products _ _ _ _) as [r|x] eqn:R; [|discriminate].
  intros H. exists e, image, q. rewrite R.
  repeat split; auto. congruence.
Qed.

Lemma search_by_url_returns (env : Env) (url : string)
    (limit : option Z) (t : option float) (category' : option string)
    (w w' : World) (out : list SimilarProduct) :
  search_by_url env url limit t category' w = (Return out, w') ->
  exists e image q,
    embedder env = Some e /\
    http_get_image env (log w) url = Some image /\
    e image = Some q /\
    rank_products q (candidates category' (db_products w))
      (Form float_0_3 t) (Form 10 limit) = Return out.
Proof.
  unfold search_by_url.
  destruct (embedder env) as [e|]; [|discriminate].
  unfold try_except, bind, lift, find_to_list, load_image_from_url,
    get_image_embedding, raise.
  destruct (http_get_image env (log w) url) as [image|] eqn:P; [|discriminate].
  cbn [db_products record_event].
  destruct (e image) as [q|] eqn:Q; [|discriminate].
  destruct (rank_products _ _ _ _) as [r|x] eqn:R; [|discriminate].
  intros H. exists e, image, q. rewrite R.
  repeat split; auto. congruence.
Qed.

Lemma rank_products_returns (q : list float) (ps : list Product) (t : float)
    (limit : Z) (out : list SimilarProduct) :
  rank_products q ps t limit = Return out ->
  out = slice_to (sort_reverse (flat_map (contribution q t) ps)) limit.
Proof.
  intros H.
  assert (F : forallb (well_formed q) ps = true).
  { apply (rank_products_returns_iff q ps t limit). now exists out. }
  rewrite (rank_products_well_formed q ps t limit F) in H. congruence.
Qed.

Lemma contribution_length (q : list float) (t : float) (p : Product) :
  (List.length (contribution q t p) <= 1)%nat.
Proof.
  destruct (contribution_cases q t p) as [(s & _ & ->)|(_ & ->)]; cbn; lia.
Qed.

Lemma survivors_length (q : list float) (t : float) (ps : list Product) :
  (List.length (flat_map (contribution q t) ps) <= List.length ps)%nat.
Proof.
  induction ps as [|p ps IH]; cbn; [lia|].
  rewrite length_app. pose proof (contribution_length q t p). lia.
Qed.

Lemma slice_to_length {A : Type} (l : list A) (limit : Z) :
  (List.length (slice_to l limit) <= List.length l)%nat /\
  (0 <= limit -> Z.of_nat (List.length (slice_to l limit)) <= limit).
Proof.
  unfold slice_to. destruct (0 <=? limit) eqn:E.
  - rewrite length_firstn. split; lia.
  - rewrite length_firstn. apply Z.leb_gt in E. split; lia.
Qed.

Lemma in_candidates (category' : option string) (docs : list Product)
    (p : Product) :
  In p (candidates category' docs) ->
  In p docs /\ matches category' p = true.
Proof.
  rewrite candidates_matches. intros H.
  apply filter_In.
  rewrite <- (firstn_skipn 1000 (filter (matches category') docs)).
  apply in_or_app. now left.
Qed.

Lemma candidates_length (category' : option string) (docs : list Product) :
  (List.length (candidates category' docs) <= 1000)%nat.
Proof.
  unfold candidates, to_list. rewrite length_firstn. lia.
Qed.

Lemma rank_products_entries (q : list float) (docs : list Product)
    (category' : option string) (t : float) (limit : Z)
    (out : list SimilarProduct) :
  rank_products q (candidates category' docs) t limit = Return out ->
  Forall (fun r =>
            ge (similarity_score r) t = true /\
            is_nan (similarity_score r) = false /\
            exists p, In p docs /\ matches category' p = true /\
                      shows r p /\
                      exists f, embedding p = Some f /\ f <> [] /\
                                np_dot q f = Some (similarity_score r))
         out.
Proof.
  intros H. apply rank_products_returns in H. subst out.
  apply Forall_forall. intros r Hr.
  apply in_slice_to in Hr.
  apply (Permutation_in _ (sort_reverse_perm _)) in Hr.
  apply in_flat_map in Hr as (p & Hp & Hr).
  apply in_contribution in Hr as (s & (f & Hf & Hne & Hd & Hg) & ->).
  apply in_candidates in Hp as [Hp Hm]. cbn.
  split; [exact Hg|]. split; [now apply ge_not_nan in Hg|].
  exists p. repeat split; auto. exists f. auto.
Qed.

(** X7: when a search returns a result, the encoder is available, the
    image was loaded and the encoder gave a query vector for it; every
    entry of the result shows a document of the collection that passes the
    category filter and has a non-empty embedding, and its score is the dot
    product of that query vector with the embedding, is not NaN and is at
    least the threshold in force. *)
Theorem search_results_sound (env : Env) (file : list Init.Byte.byte)
    (url : string) (limit : option Z) (t : option float)
    (category' : option string) (w : World) :
  (forall out w',
     search_by_upload env file limit t category' w = (Return out, w') ->
     exists e image q,
       embedder env = Some e /\
       pil_open env file = Some image /\
       e image = Some q /\
       Forall (fun r =>
                 ge (similarity_score r) (Form float_0_3 t) = true /\
                 is_nan (similarity_score r) = false /\
                 exists p, In p (db_products w) /\
                           matches category' p = true /\ shows r p /\
                           exists f, embedding p = Some f /\ f <> [] /\
                                     np_dot q f = Some (similarity_score r))
              out) /\
  (forall out w',
     search_by_url env url limit t category' w = (Return out, w') ->
     exists e image q,
       embedder env = Some e /\
       http_get_image env (log w) url = Some image /\
       e image = Some q /\
       Forall (fun r =>
                 ge (similarity_score r) (Form float_0_3 t) = true /\
                 is_nan (similarity_score r) = false /\
                 exists p, In p (db_products w) /\
                           matches category' p = true /\ shows r p /\
                           exists f, embedding p = Some f /\ f <> [] /\
                                     np_dot q f = Some (similarity_score r))
              out).
Proof.
  split; intros out w' H.
  - apply search_by_upload_returns in H as (e & image & q & E & P & Q & H).
    exists e, image, q. repeat split; auto.
    now apply rank_products_entries with (limit := Form 10 limit).
  - apply search_by_url_returns in H as (e & image & q & E & P & Q & H).
    exists e, image, q. repeat split; auto.
    now apply rank_products_entries with (limit := Form 10 limit).
Qed.

Lemma search_results_sound_witness :
  exists (e : Image Sample.env -> option (list float))
         (image : Image Sample.env) (q : list float),
    embedder Sample.env = Some e /\
    pil_open Sample.env Sample.upload = Some image /\
    e image = Some q /\
    Forall (fun r =>
              ge (similarity_score r) float_0_3 = true /\
              is_nan (similarity_score r) = false /\
              exists p, In p [Sample.A; Sample.B; Sample.D] /\
                        matches None p = true /\ shows r p /\
                        exists f, embedding p = Some f /\ f <> [] /\
                                  np_dot q f = Some (similarity_score r))
           [result_entry Sample.A Sample.f0_9;
            result_entry Sample.B float_0_5].
Proof.
  destruct (search_results_sound Sample.env Sample.upload "u" None None None
              (Sample.world_of [Sample.A; Sample.B; Sample.D])) as [H _].
  apply (H _ (Sample.world_of [Sample.A; Sample.B; Sample.D])).
  vm_compute. reflexivity.
Defined.

(** X8: with a non-empty category filter, every entry of a returned search
    result has exactly that category. *)
Theorem search_results_in_category (env : Env) (file : list Init.Byte.byte)
    (url : string) (limit : option Z) (t : option float) (c : string)
    (w : World) :
  c <> "" ->
  (forall out w',
     search_by_upload env file limit t (Some c) w = (Return out, w') ->
     Forall (fun r => r_category r = c) out) /\
  (forall out w',
     search_by_url env url limit t (Some c) w = (Return out, w') ->
     Forall (fun r => r_category r = c) out).
Proof.
  intros Hc.
  assert (K : forall q out,
             rank_products q (candidates (Some c) (db_products w))
               (Form float_0_3 t) (Form 10 limit) = Return out ->
             Forall (fun r => r_category r = c) out).
  { intros q out H. apply rank_products_entries in H.
    eapply Forall_impl; [|exact H]. cbn.
    intros r (_ & _ & p & _ & Hm & (_ & _ & Hcat & _) & _).
    rewrite Hcat. destruct (String.eqb_spec c ""); [contradiction|].
    now apply String.eqb_eq. }
  split; intros out w' H.
  - apply search_by_upload_returns in H as (e & image & q & _ & _ & _ & H).
    eauto.
  - apply search_by_url_returns in H as (e & image & q & _ & _ & _ & H).
    eauto.
Qed.

Lemma search_results_in_category_witness :
  "Electronics" <> "" /\
  Forall (fun r => r_category r = "Electronics")
    [result_entry Sample.A Sample.f0_9; result_entry Sample.B float_0_5].
Proof.
  split; [discriminate|].
  destruct (search_results_in_category Sample.env Sample.upload "u" None None
              "Electronics"
              (Sample.world_of [Sample.C; Sample.A; Sample.B; Sample.D]))
    as [H _]; [discriminate|].
  apply (H _ (Sample.world_of [Sample.C; Sample.A; Sample.B; Sample.D])).
  vm_compute. reflexivity.
Defined.

(** X9: a returned search result never has more than 1000 entries, and
    never more than the limit in force when that limit is not negative:
    at most 10 when the limit is omitted. *)
Theorem search_results_bounded (env : Env) (file : list Init.Byte.byte)
    (url : string) (limit : option Z) (t : option float)
    (category' : option string) (w : World) :
  (forall out w',
     search_by_upload env file limit t category' w = (Return out, w') ->
     (List.length out <= 1000)%nat /\
     (List.length out <= List.length (db_products w))%nat /\
     (0 <= Form 10 limit -> Z.of_nat (List.length out) <= Form 10 limit)) /\
  (forall out w',
     search_by_url env url limit t category' w = (Return out, w') ->
     (List.length out <= 1000)%nat /\
     (List.length out <= List.length (db_products w))%nat /\
     (0 <= Form 10 limit -> Z.of_nat (List.length out) <= Form 10 limit)).
Proof.
  assert (K : forall q out,
             rank_products q (candidates category' (db_products w))
               (Form float_0_3 t) (Form 10 limit) = Return out ->
             (List.length out <= 1000)%nat /\
             (List.length out <= List.length (db_products w))%nat /\
             (0 <= Form 10 limit ->
              Z.of_nat (List.length out) <= Form 10 limit)).
  { intros q out H. apply rank_products_returns in H. subst out.
    destruct (slice_to_length
                (sort_reverse (flat_map (contribution q (Form float_0_3 t))
                   (candidates category' (db_products w))))
                (Form 10 limit)) as [L1 L2].
    rewrite (Permutation_length (sort_reverse_perm _)) in L1.
    pose proof (survivors_length q (Form float_0_3 t)
                  (candidates category' (db_products w))) as L3.
    pose proof (candidates_length category' (db_products w)) as L4.
    assert (L5 : (List.length (candidates category' (db_products w))
                  <= List.length (db_products w))%nat).
    { rewrite candidates_matches, length_firstn.
      pose proof (filter_length_le (matches category') (db_products w)). lia. }
    repeat split; auto; lia. }
  split; intros out w' H.
  - apply search_by_upload_returns in H as (e & image & q & _ & _ & _ & H).
    eauto.
  - apply search_by_url_returns in H as (e & image & q & _ & _ & _ & H).
    eauto.
Qed.

Lemma search_results_bounded_witness :
  (List.length [result_entry Sample.A Sample.f0_9;
                result_entry Sample.B float_0_5] <= 1000)%nat /\
  Z.of_nat (List.length [result_entry Sample.A Sample.f0_9;
                         result_entry Sample.B float_0_5]) <= 10.
Proof.
  destruct (search_results_bounded Sample.env Sample.upload "u" None None None
              (Sample.world_of [Sample.A; Sample.B; Sample.D])) as [H _].
  destruct (H [result_entry Sample.A Sample.f0_9;
               result_entry Sample.B float_0_5]
              (Sample.world_of [Sample.A; Sample.B; Sample.D]))
    as (H1 & _ & H3).
  - vm_compute. reflexivity.
  - split; [exact H1|]. apply H3. cbn. lia.
Defined.

(** ** Limits and thresholds *)

(** X10: a negative limit [k] is taken as a slice bound counted from the
    end: the ranking lacks the [-k] lowest-ranked surviving entries, and is
    empty when at most [-k] entries survive. *)
Theorem negative_limit_drops_tail (q : list float) (ps : list Product)
    (t : float) (k : Z) :
  forallb (well_formed q) ps = true ->
  k < 0 ->
  exists out dropped,
    rank_products q ps t k = Return out /\
    sort_reverse (flat_map (contribution q t) ps) = out ++ dropped /\
    List.length dropped
    = Nat.min (Z.to_nat (- k)) (List.length (flat_map (contribution q t) ps)) /\
    ((List.length (flat_map (contribution q t) ps) <= Z.to_nat (- k))%nat ->
     out = []).
Proof.
  intros F Hk. rewrite (rank_products_well_formed q ps t k F).
  set (S := sort_reverse (flat_map (contribution q t) ps)).
  assert (L : List.length S = List.length (flat_map (contribution q t) ps)).
  { apply Permutation_length, sort_reverse_perm. }
  unfold slice_to. destruct (0 <=? k) eqn:E; [apply Z.leb_le in E; lia|].
  exists (firstn (List.length S - Z.to_nat (- k)) S),
    (skipn (List.length S - Z.to_nat (- k)) S).
  split; [reflexivity|]. split; [now rewrite firstn_skipn|].
  split.
  - rewrite length_skipn, <- L. lia.
  - intros H. rewrite <- L in H.
    replace (List.length S - Z.to_nat (- k))%nat with 0%nat by lia.
    reflexivity.
Qed.

Lemma negative_limit_drops_tail_witness :
  forallb (well_formed Sample.query) [Sample.B; Sample.A; Sample.C] = true /\
  -1 < 0 /\
  exists (out dropped : list SimilarProduct),
    rank_products Sample.query [Sample.B; Sample.A; Sample.C] float_0_3 (-1)
    = Return out /\
    List.length dropped = 1%nat.
Proof.
  split; [reflexivity|]. split; [lia|].
  destruct (negative_limit_drops_tail Sample.query
              [Sample.B; Sample.A; Sample.C] float_0_3 (-1) eq_refl eq_refl)
    as (out & dropped & H & _ & L & _).
  exists out, dropped. split; [exact H|exact L].
Defined.

(** X11: with the same query, candidates and threshold, the ranking for a
    limit [k] is the first [k] entries of the ranking for any larger limit:
    raising the limit only appends entries. *)
Theorem limit_prefix (q : list float) (ps : list Product) (t : float)
    (k k' : Z) :
  forallb (well_formed q) ps = true ->
  0 <= k -> k <= k' ->
  exists out',
    rank_products q ps t k' = Return out' /\
    rank_products q ps t k = Return (firstn (Z.to_nat k) out').
Proof.
  intros F Hk Hk'. rewrite !(rank_products_well_formed q ps t _ F).
  unfold slice_to.
  destruct (0 <=? k) eqn:E; [|apply Z.leb_gt in E; lia].
  destruct (0 <=? k') eqn:E'; [|apply Z.leb_gt in E'; lia].
  eexists. split; [reflexivity|].
  rewrite firstn_firstn. do 2 f_equal. lia.
Qed.

Lemma limit_prefix_witness :
  forallb (well_formed Sample.query) [Sample.B; Sample.A; Sample.C] = true /\
  0 <= 1 /\ 1 <= 3 /\
  rank_products Sample.query [Sample.B; Sample.A; Sample.C] float_0_3 1
  = Return [result_entry Sample.A Sample.f0_9].
Proof.
  split; [reflexivity|]. split; [lia|]. split; [lia|].
  destruct (limit_prefix Sample.query [Sample.B; Sample.A; Sample.C]
              float_0_3 1 3 eq_refl) as (out' & H' & H); try lia.
  rewrite H. vm_compute in H'. injection H' as <-. reflexivity.
Defined.

Lemma contribution_threshold (q : list float) (t t' : float) (p : Product) :
  ge t' t = true ->
  contribution q t' p
  = filter (fun r => ge (similarity_score r) t') (contribution q t p).
Proof.
  intros G. unfold contribution, score_product, calculate_cosine_similarity.
  destruct (embedding p) as [[|x f]|]; auto.
  destruct (np_dot q (x :: f)) as [s|]; auto.
  destruct (ge s t') eqn:G'; cbn.
  - rewrite (ge_trans s t' t G' G). cbn. now rewrite G'.
  - destruct (ge s t); cbn; auto. now rewrite G'.
Qed.

Lemma flat_map_filter {A B : Type} (f : A -> list B) (P : B -> bool)
    (l : list A) :
  filter P (flat_map f l) = flat_map (fun a => filter P (f a)) l.
Proof.
  induction l as [|a l IH]; cbn; auto.
  now rewrite filter_app, IH.
Qed.

(** X12: raising the threshold only removes entries: the candidates that
    survive a threshold [t'] at least [t] are those survivors of [t] whose
    score is at least [t'], in the same order. *)
Theorem threshold_monotone (q : list float) (ps : list Product) (t t' : float) :
  forallb (well_formed q) ps = true ->
  ge t' t = true ->
  exists survivors,
    score_products q t [] ps = Return survivors /\
    score_products q t' [] ps
    = Return (filter (fun r => ge (similarity_score r) t') survivors).
Proof.
  intros F G. exists (flat_map (contribution q t) ps).
  rewrite !(score_products_well_formed q _ ps [] F). cbn.
  split; [reflexivity|]. f_equal.
  rewrite flat_map_filter. apply flat_map_ext.
  intros p. now apply contribution_threshold.
Qed.

Lemma threshold_monotone_witness :
  forallb (well_formed Sample.query) [Sample.B; Sample.A; Sample.C] = true /\
  ge Sample.f0_6 float_0_3 = true /\
  score_products Sample.query Sample.f0_6 [] [Sample.B; Sample.A; Sample.C]
  = Return [result_entry Sample.A Sample.f0_9;
            result_entry Sample.C Sample.f0_85].
Proof.
  split; [reflexivity|]. split; [reflexivity|].
  destruct (threshold_monotone Sample.query [Sample.B; Sample.A; Sample.C]
              float_0_3 Sample.f0_6 eq_refl eq_refl) as (s & H1 & H2).
  rewrite H2. vm_compute in H1. injection H1 as <-. reflexivity.
Defined.

Lemma ge_nan_r (s t : float) : is_nan t = true -> ge s t = false.
Proof.
  destruct t; try discriminate. intros _. unfold ge.
  now rewrite SFcompare_nan_r.
Qed.

(** X13: a threshold that is NaN is met by no score: the ranking is empty
    for every well-formed candidate list and every limit. *)
Theorem nan_threshold_empties (q : list float) (ps : list Product)
    (t : float) (limit : Z) :
  forallb (well_formed q) ps = true ->
  is_nan t = true ->
  rank_products q ps t limit = Return [].
Proof.
  intros F N. rewrite (rank_products_well_formed q ps t limit F).
  replace (flat_map (contribution q t) ps) with (@nil SimilarProduct).
  - unfold sort_reverse. cbn. now rewrite slice_to_nil.
  - symmetry. induction ps as [|p ps IH]; [reflexivity|].
    cbn in F. apply andb_true_iff in F as [_ F]. cbn. rewrite (IH F).
    destruct (contribution_cases q t p) as [(s & (f & _ & _ & _ & G) & _)|(_ & ->)];
      [|reflexivity].
    rewrite (ge_nan_r s t N) in G. discriminate.
Qed.

Lemma nan_threshold_empties_witness :
  forallb (well_formed Sample.query) [Sample.B; Sample.A; Sample.C] = true /\
  is_nan S754_nan = true /\
  rank_products Sample.query [Sample.B; Sample.A; Sample.C] S754_nan 10
  = Return [].
Proof.
  split; [reflexivity|]. split; [reflexivity|].
  apply (nan_threshold_empties Sample.query [Sample.B; Sample.A; Sample.C]
           S754_nan 10); reflexivity.
Defined.

(** X14: the two search routes agree: when the uploaded bytes decode to the
    image that the URL delivers, both return the same result or fail with
    the same status, for every limit, threshold and category. *)
Theorem search_routes_agree (env : Env) (file : list Init.Byte.byte)
    (url : string) (image : Image env) (limit : option Z) (t : option float)
    (category' : option string) (w : World) :
  pil_open env file = Some image ->
  http_get_image env (log w) url = Some image ->
  fst (search_by_upload env file limit t category' w)
  = fst (search_by_url env url limit t category' w).
Proof.
  intros Hf Hu. unfold search_by_upload, search_by_url.
  destruct (embedder env) as [e|]; [|reflexivity].
  unfold try_except, bind, lift, find_to_list, load_image_from_bytes,
    load_image_from_url, get_image_embedding, raise.
  rewrite Hf, Hu. cbn [db_products record_event].
  destruct (e image) as [q|]; [|reflexivity].
  destruct (rank_products _ _ _ _); reflexivity.
Qed.

Lemma search_routes_agree_witness :
  fst (search_by_upload Sample.env Sample.upload (Some 2) None None
         (Sample.world_of [Sample.B; Sample.A; Sample.C]))
  = fst (search_by_url Sample.env "u" (Some 2) None None
           (Sample.world_of [Sample.B; Sample.A; Sample.C])).
Proof.
  apply (search_routes_agree Sample.env Sample.upload "u" "u"); reflexivity.
Defined.

(** ** How the routes compose *)

(** X15: once a product has been created, seeding is disabled: the next
    [seed_products] inserts nothing and reports the number of documents. *)
Theorem create_then_seed_is_noop (env : Env) (product : ProductCreate)
    (w w1 : World) (doc : Product) :
  create_product env product w = (Return doc, w1) ->
  seed_products env w1
  = (Return (AlreadySeeded (S (List.length (db_products w)))), w1).
Proof.
  intros H. destruct (embedder env) as [e|] eqn:E.
  - rewrite (create_product_cases env e product w E) in H.
    destruct (http_get_image env (log w) (pc_image_url product)) as [image|];
      [|discriminate].
    destruct (e image) as [v|]; [|discriminate].
    destruct (insert_acknowledged env _); [|discriminate].
    injection H as <- <-.
    rewrite (seed_products_nonempty env e E).
    + cbn [db_products]. rewrite length_app. cbn.
      now rewrite Nat.add_1_r.
    + cbn [db_products]. intros N. now apply app_eq_nil in N as [_ N].
  - unfold create_product in H. rewrite E in H. discriminate.
Qed.

Lemma create_then_seed_is_noop_witness :
  seed_products Sample.env
    (snd (create_product Sample.env Sample.new_item Sample.empty_world))
  = (Return (AlreadySeeded 1),
     snd (create_product Sample.env Sample.new_item Sample.empty_world)).
Proof.
  apply (create_then_seed_is_noop Sample.env Sample.new_item Sample.empty_world
           _ (created_doc Sample.env Sample.new_item Sample.query
                [EvGet "http://lamp"])).
  reflexivity.
Defined.

Lemma np_dot_some_length (q f : list float) (s : float) :
  np_dot q f = Some s -> Nat.eqb (List.length q) (List.length f) = true.
Proof.
  unfold np_dot. destruct (Nat.eqb _ _); [reflexivity|discriminate].
Qed.

(** X16: a created product can be found: after a successful
    [create_product] into a collection of fewer than 1000 well-formed
    documents, a URL search whose query reaches the threshold against the
    new embedding, with a limit above the number of documents and no
    category or the product's category, returns an entry for the new
    document with that score. *)
Theorem created_product_is_found (env : Env)
    (e : Image env -> option (list float)) (product : ProductCreate)
    (image image' : Image env) (v q : list float) (s t : float) (k : Z)
    (url : string) (category' : option string) (w : World) :
  embedder env = Some e ->
  http_get_image env (log w) (pc_image_url product) = Some image ->
  e image = Some v ->
  insert_acknowledged env (log w ++ [EvGet (pc_image_url product)]) = true ->
  (List.length (db_products w) < 1000)%nat ->
  forallb (well_formed q) (db_products w) = true ->
  category' = None \/ category' = Some (pc_category product) ->
  http_get_image env (log (snd (create_product env product w))) url
  = Some image' ->
  e image' = Some q ->
  v <> [] ->
  np_dot q v = Some s ->
  ge s t = true ->
  Z.of_nat (List.length (db_products w)) < k ->
  exists doc out,
    fst (create_product env product w) = Return doc /\
    fst (search_by_url env url (Some k) (Some t) category'
           (snd (create_product env product w))) = Return out /\
    In (result_entry doc s) out.
Proof.
  intros E Hg He Hi Hlen Hwf Hcat Hg' He' Hv Hd Hs Hk.
  rewrite (create_product_cases env e product w E), Hg, He, Hi in *.
  cbn [fst snd] in *.
  set (doc := created_doc env product v
                (log w ++ [EvGet (pc_image_url product)])) in *.
  set (w1 := {| db_products := db_products w ++ [doc]; log := _ |}) in *.
  rewrite (search_by_url_ranks env e E url image' q (Some k) (Some t)
             category' w1 Hg' He').
  cbn [fst Form db_products w1].
  assert (M : matches category' doc = true).
  { destruct Hcat as [->| ->]; cbn; auto.
    destruct (String.eqb _ ""); auto. apply String.eqb_refl. }
  assert (Wd : well_formed q doc = true).
  { unfold well_formed. cbn. destruct v as [|x f]; [congruence|].
    now apply np_dot_some_length in Hd. }
  assert (C : candidates category' (db_products w ++ [doc])
              = filter (matches category') (db_products w) ++ [doc]).
  { rewrite candidates_matches, filter_app.
    change (filter (matches category') [doc])
      with (if matches category' doc then [doc] else []).
    rewrite M.
    apply firstn_all2. rewrite length_app. cbn [List.length].
    pose proof (filter_length_le (matches category') (db_products w)). lia. }
  assert (F : forallb (well_formed q)
                (candidates category' (db_products w ++ [doc])) = true).
  { rewrite C. apply forallb_forall. intros p Hp.
    apply in_app_or in Hp as [Hp|[<-|[]]]; [|exact Wd].
    apply filter_In in Hp as [Hp _].
    rewrite forallb_forall in Hwf. now apply Hwf. }
  rewrite (rank_products_well_formed q _ t k F). cbn [http_500].
  exists doc. eexists. split; [reflexivity|]. split; [reflexivity|].
  unfold slice_to. destruct (0 <=? k) eqn:Ek; [|apply Z.leb_gt in Ek; lia].
  rewrite firstn_all2.
  - apply (Permutation_in _ (Permutation_sym (sort_reverse_perm _))).
    apply in_flat_map. exists doc. split.
    + rewrite C. apply in_or_app. right. now left.
    + destruct (contribution_cases q t doc) as [(s' & K & ->)|(N & _)].
      * destruct K as (f & Hf & _ & Hd' & _). cbn in Hf.
        injection Hf as <-. left. congruence.
      * exfalso. apply (N s). exists v. repeat split; auto.
  - rewrite (Permutation_length (sort_reverse_perm _)).
    pose proof (survivors_length q t
                  (candidates category' (db_products w ++ [doc]))) as L.
    assert (L' : (List.length (candidates category' (db_products w ++ [doc]))
                  <= S (List.length (db_products w)))%nat).
    { rewrite C, length_app. cbn [List.length].
      pose proof (filter_length_le (matches category') (db_products w)). lia. }
    lia.
Qed.

Lemma created_product_is_found_witness :
  exists doc out,
    fst (create_product Sample.env Sample.new_item
           (Sample.world_of [Sample.A])) = Return doc /\
    fst (search_by_url Sample.env "u" (Some 10) (Some float_0_3) (Some "Home")
           (snd (create_product Sample.env Sample.new_item
                   (Sample.world_of [Sample.A])))) = Return out /\
    In (result_entry doc Sample.one) out.
Proof.
  apply (created_product_is_found Sample.env (fun _ => Some Sample.query)
           Sample.new_item "http://lamp" "u" Sample.query Sample.query
           Sample.one float_0_3 10 "u" (Some "Home")
           (Sample.world_of [Sample.A]));
    try reflexivity; try (cbn; lia); try discriminate;
    try (right; reflexivity).
Defined.

(** ** Listing products and categories *)

(** X17: [get_categories] lists each category of the collection exactly
    once and nothing else, and leaves the world as it was. *)
Theorem categories_listed_once (w : World) :
  exists categories,
    get_categories w = (Return categories, w) /\
    NoDup categories /\
    forall c, In c categories <->
              exists p, In p (db_products w) /\ category p = c.
Proof.
  exists (distinct_category (db_products w)).
  split; [reflexivity|]. unfold distinct_category.
  split; [apply NoDup_nodup|].
  intros c. rewrite nodup_In, in_map_iff.
  split; intros (p & H1 & H2); exists p; auto.
Qed.

Lemma categories_listed_once_witness :
  exists categories,
    get_categories (Sample.world_of [Sample.A; Sample.C; Sample.B; Sample.D])
    = (Return categories,
       Sample.world_of [Sample.A; Sample.C; Sample.B; Sample.D]) /\
    In "Fashion" categories /\ NoDup categories.
Proof.
  destruct (categories_listed_once
              (Sample.world_of [Sample.A; Sample.C; Sample.B; Sample.D]))
    as (categories & H & N & I).
  exists categories. repeat split; auto.
  apply I. exists Sample.C. split; [right; left; reflexivity|reflexivity].
Defined.

Section Listing.

Context {DT : Type}.
Variable fromisoformat : string -> option DT.

Lemma parse_created_at_ok (products : list Product) :
  (forall p, In p products -> fromisoformat (created_at p) <> None) ->
  exists out,
    parse_created_at fromisoformat products = Return out /\
    map fst out = products /\
    Forall (fun pd => fromisoformat (created_at (fst pd)) = Some (snd pd)) out.
Proof.
  induction products as [|p ps IH]; intros H.
  - exists []. repeat split; constructor.
  - destruct IH as (out & Ho & Hm & Hf); [intros; apply H; now right|].
    cbn. destruct (fromisoformat (created_at p)) as [d|] eqn:D.
    + rewrite Ho. exists ((p, d) :: out). cbn. rewrite Hm.
      repeat split. constructor; auto.
    + exfalso. apply (H p); auto. now left.
Qed.

Lemma parse_created_at_fails (products : list Product) (p : Product) :
  In p products -> fromisoformat (created_at p) = None ->
  parse_created_at fromisoformat products = Raise ValueError.
Proof.
  induction products as [|p' ps IH]; intros H N; [contradiction|].
  cbn. destruct H as [<-|H].
  - now rewrite N.
  - destruct (fromisoformat (created_at p')); auto.
    now rewrite (IH H N).
Qed.

End Listing.

(** X18: [get_products] lists the first 1000 documents in the order of the
    collection, each with its parsed creation time, and leaves the world as
    it was; one document among these whose creation time does not parse
    makes the whole listing fail with [ValueError], while documents beyond
    the first 1000 are neither listed nor parsed. *)
Theorem products_listed (DT : Type) (fromisoformat : string -> option DT)
    (w : World) :
  ((forall p, In p (firstn 1000 (db_products w)) ->
              fromisoformat (created_at p) <> None) ->
   exists out,
     get_products fromisoformat w = (Return out, w) /\
     map fst out = firstn 1000 (db_products w) /\
     (List.length out <= 1000)%nat /\
     Forall (fun pd => fromisoformat (created_at (fst pd)) = Some (snd pd))
       out) /\
  ((exists p, In p (firstn 1000 (db_products w)) /\
              fromisoformat (created_at p) = None) ->
   get_products fromisoformat w = (Raise ValueError, w)).
Proof.
  unfold get_products, bind, find_to_list, lift.
  change (candidates None (db_products w)) with (firstn 1000 (db_products w)).
  split.
  - intros H.
    destruct (parse_created_at_ok fromisoformat _ H) as (out & Ho & Hm & Hf).
    exists out. rewrite Ho. repeat split; auto.
    rewrite <- (length_map fst), Hm, length_firstn. lia.
  - intros (p & Hp & N).
    now rewrite (parse_created_at_fails fromisoformat _ p Hp N).
Qed.

Lemma products_listed_witness :
  get_products Sample.parse_time (Sample.world_of [Sample.A; Sample.D])
  = (Return [(Sample.A, "2024-01-01T00:00:00+00:00");
             (Sample.D, "2024-01-01T00:00:00+00:00")],
     Sample.world_of [Sample.A; Sample.D]) /\
  get_products Sample.parse_time
    (Sample.world_of [Sample.A; Sample.undated; Sample.D])
  = (Raise ValueError, Sample.world_of [Sample.A; Sample.undated; Sample.D]).
Proof.
  split.
  - destruct (products_listed string Sample.parse_time
                (Sample.world_of [Sample.A; Sample.D])) as [H _].
    destruct H as (out & Ho & Hm & _).
    + intros p [<-|[<-|[]]]; discriminate.
    + rewrite Ho. f_equal. vm_compute in Ho. now injection Ho as <-.
  - apply (products_listed string Sample.parse_time
             (Sample.world_of [Sample.A; Sample.undated; Sample.D])).
    exists Sample.undated. split; [right; left; reflexivity|reflexivity].
Defined.

(** X20: the health route reports whether the CLIP libraries could be
    imported, not whether the model was loaded: when the import works and
    the constructor fails, it answers [clip_available = true] while every
    route that needs the encoder answers 503. *)
Theorem health_flag_is_not_readiness (env : Env) (product : ProductCreate)
    (file : list Init.Byte.byte) (url : string) (w : World) :
  CLIP_AVAILABLE env = true ->
  CLIPEmbedder env = None ->
  snd (root env) = true /\
  fst (create_product env product w) = Raise (HTTPException 503) /\
  fst (search_by_upload env file None None None w)
  = Raise (HTTPException 503) /\
  fst (search_by_url env url None None None w) = Raise (HTTPException 503) /\
  fst (seed_products env w) = Raise (HTTPException 503).
Proof.
  intros A C.
  assert (E : embedder env = None).
  { apply embedder_unavailable. now right. }
  unfold root, create_product, search_by_upload, search_by_url, seed_products.
  rewrite E. cbn. auto.
Qed.

Lemma health_flag_is_not_readiness_witness :
  snd (root Sample.env_broken) = true /\
  fst (seed_products Sample.env_broken Sample.empty_world)
  = Raise (HTTPException 503).
Proof.
  destruct (health_flag_is_not_readiness Sample.env_broken Sample.new_item
              Sample.upload "u" Sample.empty_world eq_refl eq_refl)
    as (H1 & _ & _ & _ & H2).
  split; assumption.
Defined.

(** ** What seeding stores *)

Section SeededDocuments.

Variable env : Env.
Variable e : Image env -> option (list float).

Lemma seed_one_document (product_data : SampleProduct) (w : World) :
  match fst (seed_one env e product_data w) with
  | Return _ =>
      exists doc,
        db_products (snd (seed_one env e product_data w))
        = db_products w ++ [doc] /\ seeded_from product_data doc
  | Raise _ =>
      db_products (snd (seed_one env e product_data w)) = db_products w
  end.
Proof.
  unfold seed_one, bind, load_image_from_url, lift, get_image_embedding,
    new_Product, insert_one, record_event.
  destruct (http_get_image env (log w) (sp_image_url product_data))
    as [image|]; cbn [fst snd log db_products]; auto.
  destruct (e image) as [v|]; cbn [fst snd log db_products]; auto.
  destruct (insert_acknowledged env _); cbn [fst snd log db_products]; auto.
  eexists. split; [reflexivity|].
  unfold seeded_from. cbn. repeat split. now exists v.
Qed.

Lemma seed_loop_documents (samples : list SampleProduct) :
  forall (inserted failed : nat) (w : World),
  exists chosen docs,
    db_products (snd (seed_loop env e samples inserted failed w))
    = db_products w ++ docs /\
    subseq chosen samples /\
    Forall2 seeded_from chosen docs.
Proof.
  induction samples as [|pd rest IH]; intros i f w.
  - exists [], []. cbn. rewrite app_nil_r. repeat split; constructor.
  - pose proof (seed_one_document pd w) as H.
    cbn [seed_loop].
    destruct (seed_one env e pd w) as [[u|x] w1]; cbn [fst snd] in H.
    + destruct H as (doc & Hd & Hs).
      destruct (IH (S i) f w1) as (chosen & docs & Hdb & Hsub & Hall).
      exists (pd :: chosen), (doc :: docs).
      rewrite Hdb, Hd, <- app_assoc. cbn.
      split; [reflexivity|]. split.
      * now apply subseq_take.
      * now constructor.
    + destruct (IH i (S f) w1) as (chosen & docs & Hdb & Hsub & Hall).
      exists chosen, docs. rewrite Hdb, H.
      split; [reflexivity|]. split; [now apply subseq_skip|exact Hall].
Qed.

End SeededDocuments.

(** X19: seeding an empty collection stores documents of the sample list
    only: the collection afterwards consists of documents built from a
    selection of the samples, in the order of the list and each sample at
    most once, with the sample's name, category, URL and price, no
    description, and an embedding; their number is the reported count. *)
Theorem seeded_documents_are_samples (env : Env)
    (e : Image env -> option (list float)) (w : World) :
  embedder env = Some e ->
  db_products w = [] ->
  exists inserted failed w' chosen,
    seed_products env w = (Return (Seeded inserted failed), w') /\
    subseq chosen sample_products /\
    Forall2 seeded_from chosen (db_products w') /\
    List.length chosen = inserted.
Proof.
  intros E D. rewrite (seed_products_empty env e E w D).
  destruct (seed_loop_documents env e sample_products 0%nat 0%nat w)
    as (chosen & docs & Hdb & Hsub & Hall).
  destruct (seed_loop_spec env e sample_products 0%nat 0%nat w)
    as (i & f & w' & L & _ & _ & Hl & _).
  rewrite L in *. cbn [fst snd] in *.
  exists i, f, w', chosen. rewrite Hdb, D. cbn [app].
  repeat split; auto.
  rewrite (Forall2_length Hall).
  rewrite Hdb, D in Hl. cbn in Hl. lia.
Qed.

Lemma seeded_documents_are_samples_witness :
  exists inserted failed w' chosen,
    seed_products Sample.env_flaky Sample.empty_world
    = (Return (Seeded inserted failed), w') /\
    subseq chosen sample_products /\
    Forall2 seeded_from chosen (db_products w') /\
    List.length chosen = inserted.
Proof.
  apply (seeded_documents_are_samples Sample.env_flaky
           (fun _ => Some Sample.query) Sample.empty_world);
    reflexivity.
Defined.

(** X21: the guard looks at the collection, not at an earlier attempt: after
    a seeding in which every sample failed the collection is still empty,
    and the next [seed_products] attempts all the samples again. *)
Theorem failed_seeding_is_retried (env : Env) (w0 w : World) (failed : nat) :
  seed_products env w0 = (Return (Seeded 0 failed), w) ->
  db_products w = [] /\
  exists inserted' failed' w',
    seed_products env w = (Return (Seeded inserted' failed'), w') /\
    (inserted' + failed' = List.length sample_products)%nat /\
    downloads w'
    = downloads w ++ map (fun s => EvGet (sp_image_url s)) sample_products.
Proof.
  intros H.
  destruct (seed_products_seeded env w0 w 0%nat failed H) as (e & E & _ & Hl).
  assert (D : db_products w = []) by now apply length_zero_iff_nil.
  split; [exact D|].
  rewrite (seed_products_empty env e E w D).
  destruct (seed_loop_spec env e sample_products 0%nat 0%nat w)
    as (i & f & w' & L & Hs & _ & _ & Hg).
  rewrite L. exists i, f, w'. cbn [fst snd]. repeat split; auto.
Qed.

Lemma failed_seeding_is_retried_witness :
  db_products (snd (seed_products Sample.env_offline Sample.empty_world)) = [] /\
  exists inserted' failed' w',
    seed_products Sample.env_offline
      (snd (seed_products Sample.env_offline Sample.empty_world))
    = (Return (Seeded inserted' failed'), w') /\
    (inserted' + failed' = 53)%nat.
Proof.
  destruct (failed_seeding_is_retried Sample.env_offline Sample.empty_world
              (snd (seed_products Sample.env_offline Sample.empty_world))
              53%nat) as (D & i & f & w' & H & Hs & _).
  - vm_compute. reflexivity.
  - split; [exact D|]. exists i, f, w'. split; [exact H|exact Hs].
Defined.

(** ** The allowed origins *)

Lemma split_on_cons (sep : ascii) (s : string) :
  exists piece pieces, split_on sep s = piece :: pieces.
Proof.
  destruct s as [|c s]; cbn; eauto.
  destruct (Ascii.eqb c sep); eauto.
  destruct (split_on sep s); eauto.
Qed.

Lemma split_on_concat (sep : ascii) (s : string) :
  String.concat (String sep EmptyString) (split_on sep s) = s.
Proof.
  induction s as [|c s IH]; [reflexivity|].
  cbn [split_on].
  destruct (split_on_cons sep s) as (piece & pieces & E). rewrite E in *.
  destruct (Ascii.eqb_spec c sep) as [->|N].
  - change (String.concat (String sep EmptyString)
              (EmptyString :: piece :: pieces))
      with (String sep (String.concat (String sep EmptyString)
                          (piece :: pieces))).
    now rewrite IH.
  - destruct pieces as [|piece' pieces].
    + cbn in *. now rewrite IH.
    + change (String.concat (String sep EmptyString)
                (String c piece :: piece' :: pieces))
        with (String c (String.concat (String sep EmptyString)
                          (piece :: piece' :: pieces))).
      now rewrite IH.
Qed.

Lemma split_on_pieces (sep : ascii) (s : string) :
  Forall (fun piece => ~ In sep (list_ascii_of_string piece)) (split_on sep s).
Proof.
  induction s as [|c s IH]; cbn [split_on].
  - constructor; auto.
  - destruct (Ascii.eqb_spec c sep) as [->|N].
    + constructor; auto.
    + destruct (split_on sep s) as [|piece pieces].
      * constructor; auto. cbn. intros [H|[]]. congruence.
      * inversion IH; subst. constructor; auto.
        cbn. intros [H|H]; [congruence|auto].
Qed.

(** X22: the allowed origins are the value of [CORS_ORIGINS] cut at its
    commas, or the single origin [*] when the variable is unset: the list
    is never empty, no origin contains a comma, and joining the origins
    with commas gives the value back, so nothing is trimmed or dropped. *)
Theorem allow_origins_split (CORS_ORIGINS : option string) :
  allow_origins CORS_ORIGINS <> [] /\
  Forall (fun origin => ~ In ","%char (list_ascii_of_string origin))
    (allow_origins CORS_ORIGINS) /\
  String.concat "," (allow_origins CORS_ORIGINS)
  = match CORS_ORIGINS with Some v => v | None => "*" end /\
  allow_origins None = ["*"].
Proof.
  unfold allow_origins. repeat split.
  - destruct (split_on_cons ","%char
                (match CORS_ORIGINS with Some v => v | None => "*" end))
      as (piece & pieces & ->). discriminate.
  - apply split_on_pieces.
  - apply split_on_concat.
Qed.

Example allow_origins_two :
  allow_origins (Some "http://a.example, http://b.example,")
  = ["http://a.example"; " http://b.example"; ""].
Proof. reflexivity. Qed.

(** ** The test client's bookkeeping *)

(** X23: whatever tests are logged, the tester's counters agree with its
    lists: the number of tests run is the number passed plus the number of
    recorded failures, the number passed is the number of recorded passes,
    and the results report these figures; with no test run the success rate
    is the integer 0. *)
Theorem tester_counters_consistent (self : Tester.VisualProductMatcherTester) :
  Tester.logged self ->
  Tester.tests_run self
  = Tester.tests_passed self + Z.of_nat (List.length (Tester.failed_tests self)) /\
  Tester.tests_passed self = Z.of_nat (List.length (Tester.passed_tests self)) /\
  Tester.res_total_tests (Tester.get_results self)
  = Tester.res_passed_tests (Tester.get_results self)
    + Z.of_nat (Tester.res_failed_tests (Tester.get_results self)) /\
  (Tester.tests_run self = 0 ->
   Tester.res_success_rate (Tester.get_results self) = inl 0).
Proof.
  intros H.
  assert (I : Tester.tests_run self
              = Tester.tests_passed self
                + Z.of_nat (List.length (Tester.failed_tests self)) /\
              Tester.tests_passed self
              = Z.of_nat (List.length (Tester.passed_tests self))).
  { induction H as [|name success details self H [IH1 IH2]]; [split; reflexivity|].
    unfold Tester.log_test. destruct success; cbn; rewrite ?length_app; cbn;
      split; lia. }
  destruct I as [I1 I2]. repeat split; auto.
  intros Z0. unfold Tester.get_results. cbn. now rewrite Z0.
Qed.

Lemma tester_counters_consistent_witness :
  Tester.tests_run
    (Tester.log_test "Search by URL" false "Status: 500"
       (Tester.log_test "API Health Check" true "" Tester.init))
  = 1 + Z.of_nat 1.
Proof.
  apply (tester_counters_consistent
           (Tester.log_test "Search by URL" false "Status: 500"
              (Tester.log_test "API Health Check" true "" Tester.init))).
  repeat constructor.
Defined.

(** X24: the exit code of the test run is 0 exactly when every logged test
    passed, and 1 otherwise; a run that logged no test exits with 0. *)
Theorem tester_exit_code (self : Tester.VisualProductMatcherTester) :
  Tester.logged self ->
  (Tester.exit_code (Tester.get_results self) = 0 <->
   Tester.tests_passed self = Tester.tests_run self) /\
  (Tester.exit_code (Tester.get_results self) = 1 <->
   Tester.tests_passed self < Tester.tests_run self).
Proof.
  intros H.
  assert (I : Tester.tests_run self
              = Tester.tests_passed self
                + Z.of_nat (List.length (Tester.failed_tests self))).
  { induction H as [|name success details self H IH]; [reflexivity|].
    unfold Tester.log_test. destruct success; cbn; rewrite ?length_app; cbn;
      lia. }
  unfold Tester.exit_code, Tester.get_results. cbn.
  destruct (Nat.eqb_spec (List.length (Tester.failed_tests self)) 0);
    split; split; intros; try lia; try reflexivity; try discriminate.
Qed.

Lemma tester_exit_code_witness :
  Tester.exit_code
    (Tester.get_results
       (Tester.log_test "Search by URL" false "Status: 500"
          (Tester.log_test "API Health Check" true "" Tester.init))) = 1.
Proof.
  apply (tester_exit_code
           (Tester.log_test "Search by URL" false "Status: 500"
              (Tester.log_test "API Health Check" true "" Tester.init))).
  - repeat constructor.
  - cbn. lia.
Defined.

(** ** The lowest threshold *)

Lemma ge_neg_infinity (s : float) :
  ge s (S754_infinity true) = negb (is_nan s).
Proof. destruct s as [[|]|[|]| |[|] m e]; reflexivity. Qed.

(** X25: with the threshold minus infinity and a limit of at least the
    number of candidates, the ranking holds one entry for each candidate
    that has a non-empty fingerprint and a score that is not NaN, and no
    other entry: only a missing fingerprint or a NaN score leaves a
    candidate out. *)
Theorem lowest_threshold_returns_all (q : list float) (ps : list Product)
    (k : Z) :
  forallb (well_formed q) ps = true ->
  Z.of_nat (List.length ps) <= k ->
  exists out,
    rank_products q ps (S754_infinity true) k = Return out /\
    StronglySorted score_ge out /\
    Permutation out
      (flat_map (fun p =>
                   match embedding p with
                   | Some (x :: f) =>
                       match np_dot q (x :: f) with
                       | Some s =>
                           if is_nan s then [] else [result_entry p s]
                       | None => []
                       end
                   | _ => []
                   end) ps).
Proof.
  intros F Hk. rewrite (rank_products_well_formed q ps _ k F).
  set (S := flat_map (contribution q (S754_infinity true)) ps).
  assert (L : (List.length (sort_reverse S) <= Z.to_nat k)%nat).
  { rewrite (Permutation_length (sort_reverse_perm S)).
    pose proof (survivors_length q (S754_infinity true) ps). fold S in H. lia. }
  unfold slice_to. destruct (0 <=? k) eqn:E; [|apply Z.leb_gt in E; lia].
  rewrite (firstn_all2 _ L).
  eexists. split; [reflexivity|].
  split; [apply sort_reverse_sorted, survivors_scores_defined|].
  rewrite sort_reverse_perm. unfold S.
  erewrite flat_map_ext; [reflexivity|].
  intros p. unfold contribution, score_product, calculate_cosine_similarity.
  destruct (embedding p) as [[|x f]|]; auto.
  destruct (np_dot q (x :: f)) as [s|]; auto.
  rewrite ge_neg_infinity. now destruct (is_nan s).
Qed.

Lemma lowest_threshold_returns_all_witness :
  forallb (well_formed Sample.query) [Sample.B; Sample.D; Sample.A] = true /\
  Z.of_nat (List.length [Sample.B; Sample.D; Sample.A]) <= 3 /\
  rank_products Sample.query [Sample.B; Sample.D; Sample.A]
    (S754_infinity true) 3
  = Return [result_entry Sample.A Sample.f0_9;
            result_entry Sample.B float_0_5].
Proof.
  split; [reflexivity|]. split; [cbn; lia|].
  destruct (lowest_threshold_returns_all Sample.query
              [Sample.B; Sample.D; Sample.A] 3 eq_refl) as (out & H & _).
  - cbn. lia.
  - rewrite H. vm_compute in H. now injection H as <-.
Defined.
